(** * Movie reservation API: booking, payment, seats and reviews

    A shallow embedding of [app.py] and [payment_service.py].

    The handlers are modelled as pure functions over an explicit world
    (the database tables plus a log of the externally visible effects:
    session commits and socket broadcasts).  Request bodies are Python
    dicts; a key that the handler reads with [data['k']] is an [option]
    field and its absence raises [KeyError], as in Python.  What the
    process draws from its runtime ([random.random()], [uuid.uuid4()])
    is passed in as an explicit environment.

    The database is the one the code defaults to, SQLite: integers
    are signed 64-bit (an int that does not fit raises [OverflowError]
    where it is bound), and a Float column turns an int into the
    nearest double.

    Not modelled: the two-second [time.sleep] and the [print] of the
    gateway, HTTP routing, and the JWT check that guards every handler
    (the handlers below are the bodies that run once [jwt_required]
    has let the request through, with the identity it yields). *)

From Stdlib Require Import List String Ascii ZArith QArith Lia Bool.
From Stdlib Require Import DecimalString DecimalZ.
Import ListNotations.

Local Open Scope string_scope.
Local Open Scope Z_scope.

(** ** Python values *)

(** JSON values as they leave the server through [jsonify] or
    [socketio.emit]. *)
#[warnings="-register-all"]
Inductive json : Type :=
| JNull
| JBool (b : bool)
| JInt (z : Z)
| JFloat (q : Q)
| JStr (s : string)
| JList (l : list json)
| JDict (d : list (string * json)).

(** A value read from a request body and only ever inspected through
    [str(...)]: the JSON atoms, and any other value (a float, a list, an
    object) carried by the text Python's [str] yields for it. *)
Inductive pyval : Type :=
| PNone
| PBool (b : bool)
| PInt (z : Z)
| PStr (s : string)
| POther (str_form : string).

(** Exceptions the handlers can raise; Flask answers them with a 500,
    except [NotFound], the [abort(404)] of [get_or_404].
    [OverflowError] is what the SQLite driver raises for an integer
    that does not fit its 64-bit column or parameter. *)
Inductive exn : Type :=
| KeyError (key : string)
| AttributeError (attr : string)
| NotFound
| OverflowError.

(** [str(v)] *)
Definition py_str (v : pyval) : string :=
  match v with
  | PNone => "None"
  | PBool true => "True"
  | PBool false => "False"
  | PInt z => NilZero.string_of_int (Z.to_int z)
  | PStr s => s
  | POther s => s
  end.

(** [len(s)] of a Python string, as an integer. *)
Definition py_len (s : string) : Z := Z.of_nat (String.length s).

(** Truth value of a JSON-like value, the test behind [if x] and [not x]. *)
Definition truthy (v : json) : bool :=
  match v with
  | JNull => false
  | JBool b => b
  | JInt z => negb (z =? 0)
  | JFloat q => negb (Qeq_bool q 0)
  | JStr s => negb (String.eqb s "")
  | JList l => match l with [] => false | _ => true end
  | JDict d => match d with [] => false | _ => true end
  end.

(** Python dicts with string keys, as association lists. *)
Module Dict.
Section Ops.
Context {V : Type}.

    (** [d.get(k)], [None] when the key is absent. *)
Fixpoint lookup (k : string) (d : list (string * V)) : option V :=
      match d with
      | [] => None
      | (k', v) :: rest => if String.eqb k k' then Some v else lookup k rest
      end.

    (** [d.get(k, default)] *)
Definition get (k : string) (default : V) (d : list (string * V)) : V :=
      match lookup k d with
      | Some v => v
      | None => default
      end.

    (** [d[k]], raising [KeyError] *)
Definition item (k : string) (d : list (string * V)) : exn + V :=
      match lookup k d with
      | Some v => inr v
      | None => inl (KeyError k)
      end.
End Ops.
End Dict.

(** ** payment_service.py *)

Module MockPaymentGateway.

  (** What one call draws from the runtime: [random.random()] returns
      [rand53 / 2^53] with [0 <= rand53 < 2^53], and [uuid.uuid4().hex]
      is [uuid_hex]. *)
Record env : Type := {
    rand53 : Z;
    uuid_hex : string
  }.

  (** The double written [0.1] is exactly [3602879701896397 / 2^55], so
      [random.random() < 0.1] is [4 * rand53 < 3602879701896397]. *)
Definition random_below_tenth (e : env) : bool :=
    4 * rand53 e <? 3602879701896397.

  (** The value of the [card_details] argument: a dict, or something
      else, on which [.get] does not exist. *)
Inductive card_details_value : Type :=
  | CardDict (d : list (string * pyval))
  | CardNotDict.

Definition invalid_card_error : string :=
    "Invalid Card Number: Must be 16 digits.".

Definition declined_error : string :=
    "Transaction Declined: Insufficient Funds.".

Definition invalid_card_response : list (string * json) :=
    [("success", JBool false); ("error", JStr invalid_card_error)].

Definition declined_response : list (string * json) :=
    [("success", JBool false); ("error", JStr declined_error)].

  (** [f"txn_{uuid.uuid4().hex[:10]}"] *)
Definition transaction_id (e : env) : string :=
    "txn_" ++ String.substring 0 10 (uuid_hex e).

Definition approved_response (e : env) : list (string * json) :=
    [("success", JBool true);
     ("transaction_id", JStr (transaction_id e));
     ("error", JNull)].

Definition process_payment (card_details : card_details_value) (amount : Q)
      (e : env) : exn + list (string * json) :=
    match card_details with
    | CardNotDict => inl (AttributeError "get")
    | CardDict d =>
        let card_number := Dict.get "number" (PStr "") d in
        if negb (py_len (py_str card_number) =? 16) then
          inr invalid_card_response
        else if random_below_tenth e then
          inr declined_response
        else
          inr (approved_response e)
    end.

End MockPaymentGateway.

(** ** The database of app.py *)

Module Theater.
Record t : Type := {
    id : Z;
    name : string;
    location : string
  }.
End Theater.

Module Showtime.
Record t : Type := {
    id : Z;
    show_time : string;
    price : Q;
    movie_id : Z;
    theater_id : Z
  }.
End Showtime.

Module Seat.
Record t : Type := {
    id : Z;
    row : string;
    number : Z;
    code : string;
    theater_id : Z
  }.
End Seat.

Module Booking.
Record t : Type := {
    id : Z;
    seat_code : string;
    user_id : string;
    showtime_id : Z
  }.
End Booking.

Module Review.
Record t : Type := {
    id : Z;
    text : string;
    rating : Z;
    sentiment_score : Q;
    user_id : string;
    movie_id : Z
  }.
End Review.

(** The tables the handlers below read or write, rows in insertion
    order. *)
Record database : Type := {
  theaters : list Theater.t;
  showtimes : list Showtime.t;
  seats : list Seat.t;
  bookings : list Booking.t;
  reviews : list Review.t
}.

Definition set_seats (d : database) (l : list Seat.t) : database :=
  {| theaters := theaters d; showtimes := showtimes d; seats := l;
     bookings := bookings d; reviews := reviews d |}.

Definition set_bookings (d : database) (l : list Booking.t) : database :=
  {| theaters := theaters d; showtimes := showtimes d; seats := seats d;
     bookings := l; reviews := reviews d |}.

Definition set_reviews (d : database) (l : list Review.t) : database :=
  {| theaters := theaters d; showtimes := showtimes d; seats := seats d;
     bookings := bookings d; reviews := l |}.

(** The integer primary key given to the next inserted row: one more
    than the largest key in the table, 1 in an empty table. *)
Definition next_id (ids : list Z) : Z := 1 + fold_right Z.max 0 ids.

(** The database is the default one, SQLite ([sqlite:///movies.db]):
    its integers are signed 64-bit, and a Python int outside that range
    cannot be bound as a query parameter or stored in an Integer
    column. *)
Definition in_int64 (z : Z) : bool := (- 2 ^ 63 <=? z) && (z <? 2 ^ 63).

(** What the outside world sees of a handler besides its response. *)
Inductive effect : Type :=
| Commit
| Emit (event : string) (payload : json).

Record world : Type := {
  db : database;
  log : list effect
}.

(** [db.session.commit()] of a session whose pending rows lead to [d]. *)
Definition commit (w : world) (d : database) : world :=
  {| db := d; log := log w ++ [Commit] |}.

(** [socketio.emit(event, payload)] *)
Definition emit (w : world) (event : string) (payload : json) : world :=
  {| db := db w; log := log w ++ [Emit event payload] |}.

(** How a handler ends: [return jsonify(body), status], or an
    exception. *)
Inductive outcome : Type :=
| Response (body : json) (status : Z)
| Raised (e : exn).

Definition message (m : string) : json := JDict [("message", JStr m)].

(** ** POST /bookings *)

Record booking_request : Type := {
  showtime_id : option Z;
  seat_code : option string;
  card_details : option MockPaymentGateway.card_details_value
}.

(** The Showtime row with primary key [sid], if there is one. *)
Definition showtime_row (d : database) (sid : Z) : option Showtime.t :=
  find (fun s => Showtime.id s =? sid) (showtimes d).

(** [Showtime.query.get(id)]: the id is bound as a parameter of the
    lookup, which raises when it does not fit. *)
Definition get_showtime (d : database) (sid : Z) : exn + option Showtime.t :=
  if in_int64 sid then inr (showtime_row d sid) else inl OverflowError.

(** [Seat.query.filter_by(theater_id=tid, code=c).first()] *)
Definition first_seat (d : database) (tid : Z) (c : string) : option Seat.t :=
  find (fun s => (Seat.theater_id s =? tid) && String.eqb (Seat.code s) c)
       (seats d).

(** [Booking.query.filter_by(showtime_id=sid, seat_code=c).first()] *)
Definition first_booking (d : database) (sid : Z) (c : string)
    : option Booking.t :=
  find (fun b => (Booking.showtime_id b =? sid)
                 && String.eqb (Booking.seat_code b) c)
       (bookings d).

(** The locals of [book_ticket] once the three checks have passed. *)
Record checked : Type := {
  ck_showtime_id : Z;
  ck_seat_code : string;
  ck_showtime : Showtime.t
}.

Definition showtime_not_found : outcome :=
  Response (message "Showtime not found") 404.

Definition seat_does_not_exist (c : string) : outcome :=
  Response (message ("Seat " ++ c ++ " does not exist in this theater!")) 400.

Definition seat_already_booked : outcome :=
  Response (message "Sorry, that seat is already booked!") 400.

(** Lines 296-319: the showtime lookup, the seat check and the
    availability check.  They only read the database. *)
Definition validate (d : database) (data : booking_request)
    : outcome + checked :=
  match showtime_id data with
  | None => inl (Raised (KeyError "showtime_id"))
  | Some sid =>
      match get_showtime d sid with
      | inl ex => inl (Raised ex)
      | inr None => inl showtime_not_found
      | inr (Some showtime) =>
          match seat_code data with
          | None => inl (Raised (KeyError "seat_code"))
          | Some c =>
              match first_seat d (Showtime.theater_id showtime) c with
              | None => inl (seat_does_not_exist c)
              | Some _ =>
                  match first_booking d sid c with
                  | Some _ => inl seat_already_booked
                  | None =>
                      inr {| ck_showtime_id := sid; ck_seat_code := c;
                             ck_showtime := showtime |}
                  end
              end
          end
      end
  end.

(** [data.get('card_details', {})] *)
Definition card_info (data : booking_request)
    : MockPaymentGateway.card_details_value :=
  match card_details data with
  | Some c => c
  | None => MockPaymentGateway.CardDict []
  end.

Definition payment_failed (err : json) : outcome :=
  Response (JDict [("message", JStr "Payment Failed"); ("error", err)]) 400.

Definition booking_confirmed (booking_id : Z) (txn : json) : outcome :=
  Response (JDict [("message", JStr "Booking confirmed!");
                   ("booking_id", JInt booking_id);
                   ("transaction_id", txn)]) 201.

Definition seat_booked (sid : Z) (c : string) : json :=
  JDict [("showtime_id", JInt sid); ("seat_code", JStr c)].

(** Lines 321-358: the payment, and when it succeeds the insert, the
    commit and the broadcast. *)
Definition settle (w : world) (current_user_id : string)
    (data : booking_request) (ck : checked) (e : MockPaymentGateway.env)
    : world * outcome :=
  let price := Showtime.price (ck_showtime ck) in
  match MockPaymentGateway.process_payment (card_info data) price e with
  | inl ex => (w, Raised ex)
  | inr payment_response =>
      match Dict.item "success" payment_response with
      | inl ex => (w, Raised ex)
      | inr ok =>
          if negb (truthy ok) then
            match Dict.item "error" payment_response with
            | inl ex => (w, Raised ex)
            | inr err => (w, payment_failed err)
            end
          else
            let new_booking :=
              {| Booking.id := next_id (map Booking.id (bookings (db w)));
                 Booking.seat_code := ck_seat_code ck;
                 Booking.user_id := current_user_id;
                 Booking.showtime_id := ck_showtime_id ck |} in
            let w1 :=
              commit w (set_bookings (db w) (bookings (db w) ++ [new_booking])) in
            let w2 :=
              emit w1 "seat_booked"
                   (seat_booked (ck_showtime_id ck) (ck_seat_code ck)) in
            match Dict.item "transaction_id" payment_response with
            | inl ex => (w2, Raised ex)
            | inr txn => (w2, booking_confirmed (Booking.id new_booking) txn)
            end
      end
  end.

(** The handler, run from its first line to its [return] with nothing
    else touching the database in between. *)
Definition book_ticket (w : world) (current_user_id : string)
    (data : booking_request) (e : MockPaymentGateway.env) : world * outcome :=
  match validate (db w) data with
  | inl out => (w, out)
  | inr ck => settle w current_user_id data ck e
  end.

(** ** Two handlers at once

    The server runs one thread per request.  A handler reads the
    database in [validate], then blocks in the gateway, then writes in
    [settle]; another handler can run in between. *)

Inductive handler : Type :=
| Arrived (current_user_id : string) (data : booking_request)
| Paying (current_user_id : string) (data : booking_request) (ck : checked)
| Returned (out : outcome).

(** One handler runs up to its next blocking point. *)
Definition step_handler (e : MockPaymentGateway.env) (w : world) (h : handler)
    : world * handler :=
  match h with
  | Arrived uid data =>
      match validate (db w) data with
      | inl out => (w, Returned out)
      | inr ck => (w, Paying uid data ck)
      end
  | Paying uid data ck =>
      let (w', out) := settle w uid data ck e in (w', Returned out)
  | Returned out => (w, h)
  end.

Fixpoint replace_nth {A : Type} (n : nat) (x : A) (l : list A) : list A :=
  match l, n with
  | [], _ => []
  | _ :: rest, O => x :: rest
  | y :: rest, S m => y :: replace_nth m x rest
  end.

(** A schedule names, step by step, the handler that runs next and what
    the gateway draws if that step reaches it. *)
Fixpoint run_schedule (sched : list (nat * MockPaymentGateway.env))
    (w : world) (hs : list handler) : world * list handler :=
  match sched with
  | [] => (w, hs)
  | (i, e) :: rest =>
      match nth_error hs i with
      | None => run_schedule rest w hs
      | Some h =>
          let (w', h') := step_handler e w h in
          run_schedule rest w' (replace_nth i h' hs)
      end
  end.

(** Requests served one after the other, each to completion. *)
Fixpoint serve_all
    (reqs : list (string * booking_request * MockPaymentGateway.env))
    (w : world) : world :=
  match reqs with
  | [] => w
  | (uid, data, e) :: rest => serve_all rest (fst (book_ticket w uid data e))
  end.

(** ** POST /theaters/<theater_id>/seats *)

Record seats_request : Type := {
  rows : option (list string);
  seats_per_row : option Z
}.

(** [range(a, b)] *)
Definition py_range (a b : Z) : list Z :=
  map (fun i => a + Z.of_nat i) (seq 0 (Z.to_nat (b - a))).

(** [f"{row}{num}"] *)
Definition seat_code_of (row : string) (num : Z) : string :=
  row ++ py_str (PInt num).

(** The two loops: the [(row, num, code)] triples handed to
    [db.session.add], in order.  [data['seats_per_row']] is read anew
    for every row. *)
Fixpoint seat_loop (data : seats_request) (rs : list string)
    : exn + list (string * Z * string) :=
  match rs with
  | [] => inr []
  | row :: rest =>
      match seats_per_row data with
      | None => inl (KeyError "seats_per_row")
      | Some n =>
          match seat_loop data rest with
          | inl ex => inl ex
          | inr more =>
              inr (map (fun num => (row, num, seat_code_of row num))
                       (py_range 1 (n + 1)) ++ more)%list
          end
      end
  end.

(** The pending rows get consecutive primary keys at the commit. *)
Fixpoint insert_seats (theater_id first_id : Z)
    (pending : list (string * Z * string)) : list Seat.t :=
  match pending with
  | [] => []
  | (row, num, code) :: rest =>
      {| Seat.id := first_id; Seat.row := row; Seat.number := num;
         Seat.code := code; Seat.theater_id := theater_id |}
      :: insert_seats theater_id (first_id + 1) rest
  end.

(** The Theater row with primary key [tid], if there is one. *)
Definition theater_row (d : database) (tid : Z) : option Theater.t :=
  find (fun t => Theater.id t =? tid) (theaters d).

(** The lookup of [Theater.query.get_or_404(id)], which raises when the
    id does not fit; the caller aborts with 404 on [None]. *)
Definition get_theater (d : database) (tid : Z) : exn + option Theater.t :=
  if in_int64 tid then inr (theater_row d tid) else inl OverflowError.

Definition seats_created (n : nat) (theater_name : string)
    (codes : list string) : outcome :=
  Response
    (JDict [("message",
             JStr ("Created " ++ py_str (PInt (Z.of_nat n)) ++ " seats for "
                   ++ theater_name));
            ("seats", JList (map JStr codes))]) 201.

Definition add_seats_to_theater (w : world) (theater_id : Z)
    (data : seats_request) : world * outcome :=
  match get_theater (db w) theater_id with
  | inl ex => (w, Raised ex)
  | inr None => (w, Raised NotFound)
  | inr (Some theater) =>
      match rows data with
      | None => (w, Raised (KeyError "rows"))
      | Some rs =>
          match seat_loop data rs with
          | inl ex => (w, Raised ex)
          | inr pending =>
              let created_seats := map snd pending in
              let new_rows :=
                insert_seats (Theater.id theater)
                             (next_id (map Seat.id (seats (db w)))) pending in
              (commit w (set_seats (db w) (seats (db w) ++ new_rows)),
               seats_created (List.length created_seats) (Theater.name theater)
                             created_seats)
          end
      end
  end.

(** ** POST /reviews *)

Record review_request : Type := {
  rq_movie_id : option Z;
  rq_text : option string;
  rq_rating : option Z
}.

(** ['Positive' if polarity > 0 else 'Negative'] *)
Definition verdict (polarity : Q) : string :=
  if Qlt_le_dec 0 polarity then "Positive" else "Negative".

Definition review_added (polarity : Q) : outcome :=
  Response
    (JDict [("message", JStr "Review added!");
            ("sentiment_analysis",
             JDict [("score", JFloat polarity);
                    ("verdict", JStr (verdict polarity))])]) 201.

Section Reviews.

(** [TextBlob(text).sentiment.polarity], a library call: any function
    from the text to a number.  The score is a finite float, taken as
    the rational it denotes; [polarity > 0] is the same test on both. *)
Variable polarity_of : string -> Q.

Definition add_review (w : world) (current_user_id : string)
    (data : review_request) : world * outcome :=
  match rq_text data with
  | None => (w, Raised (KeyError "text"))
  | Some text =>
      let polarity := polarity_of text in
      match rq_movie_id data with
      | None => (w, Raised (KeyError "movie_id"))
      | Some movie_id =>
          match rq_rating data with
          | None => (w, Raised (KeyError "rating"))
          | Some rating =>
              let new_review :=
                {| Review.id := next_id (map Review.id (reviews (db w)));
                   Review.text := text;
                   Review.rating := rating;
                   Review.sentiment_score := polarity;
                   Review.user_id := current_user_id;
                   Review.movie_id := movie_id |} in
              (* the INSERT of the commit binds both integers *)
              if in_int64 rating && in_int64 movie_id then
                (commit w (set_reviews (db w)
                             (reviews (db w) ++ [new_review])),
                 review_added polarity)
              else (w, Raised OverflowError)
          end
      end
  end.

End Reviews.

(** ** Numbers and Float columns *)

(** A JSON number as Python reads it: an int, or a float, taken as the
    rational a finite double denotes. *)
Inductive number : Type :=
| NInt (z : Z)
| NFloat (q : Q).

(** [float(z)] for an integer of the 64-bit range: the nearest double,
    ties to the even mantissa.  Integers up to [2^53] are doubles. *)
Definition double_of_int (z : Z) : Z :=
  let a := Z.abs z in
  if a <=? 2 ^ 53 then z
  else
    let k := Z.log2 a - 52 in
    let q := a / 2 ^ k in
    let r := a mod 2 ^ k in
    let half := 2 ^ (k - 1) in
    let m := if (half <? r) || ((r =? half) && Z.odd q) then q + 1 else q in
    Z.sgn z * (m * 2 ^ k).

(** What a Float column holds and gives back for a number written to
    it: a float as it is, an int converted to a double by SQLite, and
    an int outside the 64-bit range cannot be bound at all. *)
Definition float_column (v : number) : exn + Q :=
  match v with
  | NFloat q => inr q
  | NInt z =>
      if in_int64 z then inr (inject_Z (double_of_int z))
      else inl OverflowError
  end.

(** ** The movie and user tables *)

Module Movie.
Record t : Type := {
  id : Z;
  title : string;
  director : string;
  rating : option Q
}.
End Movie.

Module User.
Record t : Type := {
  id : Z;
  username : string;
  password_hash : string
}.
End User.

(** The whole application: the world above with the two tables it
    leaves out. *)
Record app : Type := {
  app_world : world;
  movies : list Movie.t;
  users : list User.t
}.

Definition set_theaters (d : database) (l : list Theater.t) : database :=
  {| theaters := l; showtimes := showtimes d; seats := seats d;
     bookings := bookings d; reviews := reviews d |}.

Definition set_showtimes (d : database) (l : list Showtime.t) : database :=
  {| theaters := theaters d; showtimes := l; seats := seats d;
     bookings := bookings d; reviews := reviews d |}.

(** [db.session.commit()] of a session that only touched the movie or
    user table. *)
Definition commit_app (a : app) (ms : list Movie.t) (us : list User.t) : app :=
  {| app_world := commit (app_world a) (db (app_world a));
     movies := ms; users := us |}.

(** ** GET /setup-db

    [db.drop_all()] then [db.create_all()]: every table is emptied.  The
    handler returns a plain string. *)
Definition setup_database (a : app) : app * string :=
  ({| app_world :=
        {| db := {| theaters := []; showtimes := []; seats := [];
                    bookings := []; reviews := [] |};
           log := log (app_world a) |};
      movies := []; users := [] |},
   "Database reset and created successfully! Old data is gone.").

(** ** POST /movies and GET /movies *)

(** [rating] is a nullable column: the key can hold [null]. *)
Record movie_request : Type := {
  mq_title : option string;
  mq_director : option string;
  mq_rating : option (option number)
}.

(** A nullable Float column: [null] is stored as it is. *)
Definition nullable_float_column (v : option number) : exn + option Q :=
  match v with
  | None => inr None
  | Some x =>
      match float_column x with
      | inl ex => inl ex
      | inr q => inr (Some q)
      end
  end.

Definition add_movie (a : app) (data : movie_request) : app * outcome :=
  match mq_title data with
  | None => (a, Raised (KeyError "title"))
  | Some title =>
      match mq_director data with
      | None => (a, Raised (KeyError "director"))
      | Some director =>
          match mq_rating data with
          | None => (a, Raised (KeyError "rating"))
          | Some rating =>
              (* the commit writes the rating to its Float column *)
              match nullable_float_column rating with
              | inl ex => (a, Raised ex)
              | inr stored =>
                  let new_movie :=
                    {| Movie.id := next_id (map Movie.id (movies a));
                       Movie.title := title;
                       Movie.director := director;
                       Movie.rating := stored |} in
                  (commit_app a (movies a ++ [new_movie]) (users a),
                   Response (message "Movie added successfully!") 201)
              end
          end
      end
  end.

Definition movie_data (movie : Movie.t) : json :=
  JDict [("id", JInt (Movie.id movie));
         ("title", JStr (Movie.title movie));
         ("director", JStr (Movie.director movie));
         ("rating", match Movie.rating movie with
                    | Some q => JFloat q
                    | None => JNull
                    end)].

Definition get_movies (a : app) : app * outcome :=
  (a, Response (JDict [("movies", JList (map movie_data (movies a)))]) 200).

(** ** POST /theaters *)

Record theater_request : Type := {
  tq_name : option string;
  tq_location : option string
}.

Definition create_theater (w : world) (data : theater_request)
    : world * outcome :=
  match tq_name data with
  | None => (w, Raised (KeyError "name"))
  | Some name =>
      match tq_location data with
      | None => (w, Raised (KeyError "location"))
      | Some location =>
          let new_theater :=
            {| Theater.id := next_id (map Theater.id (theaters (db w)));
               Theater.name := name;
               Theater.location := location |} in
          (commit w (set_theaters (db w) (theaters (db w) ++ [new_theater])),
           Response (message "Theater created!") 201)
      end
  end.

(** ** POST /showtimes and GET /movies/<movie_id>/showtimes *)

Record showtime_request : Type := {
  sq_show_time : option string;
  sq_movie_id : option Z;
  sq_theater_id : option Z;
  sq_price : option number
}.

(** [create_showtime] can also end in the [ValueError] of [strptime]. *)
Inductive showtime_outcome : Type :=
| ValueError
| Handled (out : outcome).

Section Showtimes.

(** [datetime.strptime(text, '%Y-%m-%d %H:%M')], a library call: the
    datetime it reads, carried as the text
    [strftime('%Y-%m-%d %H:%M')] gives back for it, or nothing when it
    raises [ValueError]. *)
Variable strptime : string -> option string.

Definition create_showtime (w : world) (data : showtime_request)
    : world * showtime_outcome :=
  match sq_show_time data with
  | None => (w, Handled (Raised (KeyError "show_time")))
  | Some text =>
      match strptime text with
      | None => (w, ValueError)
      | Some date_obj =>
          match sq_movie_id data with
          | None => (w, Handled (Raised (KeyError "movie_id")))
          | Some movie_id =>
              match sq_theater_id data with
              | None => (w, Handled (Raised (KeyError "theater_id")))
              | Some theater_id =>
                  (* [data.get('price', 10.0)], then the INSERT of the
                     commit binds the price and both ids *)
                  let price :=
                    match sq_price data with
                    | Some p => p
                    | None => NFloat 10
                    end in
                  match float_column price with
                  | inl ex => (w, Handled (Raised ex))
                  | inr stored =>
                      if in_int64 movie_id && in_int64 theater_id then
                        let new_showtime :=
                          {| Showtime.id :=
                               next_id (map Showtime.id (showtimes (db w)));
                             Showtime.show_time := date_obj;
                             Showtime.price := stored;
                             Showtime.movie_id := movie_id;
                             Showtime.theater_id := theater_id |} in
                        (commit w (set_showtimes (db w)
                                     (showtimes (db w) ++ [new_showtime])),
                         Handled (Response (message "Showtime created!") 201))
                      else (w, Handled (Raised OverflowError))
                  end
              end
          end
      end
  end.

End Showtimes.

(** The lookup of [Movie.query.get_or_404(id)], which raises when the
    id does not fit; the caller aborts with 404 on [None]. *)
Definition get_movie (a : app) (mid : Z) : exn + option Movie.t :=
  if in_int64 mid then inr (find (fun m => Movie.id m =? mid) (movies a))
  else inl OverflowError.

(** [movie.showtimes], the relationship on [Showtime.movie_id]. *)
Definition showtimes_of (d : database) (movie : Movie.t) : list Showtime.t :=
  filter (fun s => Showtime.movie_id s =? Movie.id movie) (showtimes d).

(** The body of the loop; [show.theater], the relationship, is the
    Theater row with the stored [theater_id], [None] when no row has
    it, and [.name] of [None] raises. *)
Definition showtime_entry (d : database) (show : Showtime.t) : exn + json :=
  match theater_row d (Showtime.theater_id show) with
  | None => inl (AttributeError "name")
  | Some theater =>
      inr (JDict [("showtime_id", JInt (Showtime.id show));
                  ("time", JStr (Showtime.show_time show));
                  ("theater", JStr (Theater.name theater));
                  ("location", JStr (Theater.location theater));
                  ("price", JFloat (Showtime.price show))])
  end.

Fixpoint showtime_entries (d : database) (shows : list Showtime.t)
    : exn + list json :=
  match shows with
  | [] => inr []
  | show :: rest =>
      match showtime_entry d show with
      | inl ex => inl ex
      | inr entry =>
          match showtime_entries d rest with
          | inl ex => inl ex
          | inr output => inr (entry :: output)
          end
      end
  end.

Definition get_movie_showtimes (a : app) (movie_id : Z) : app * outcome :=
  match get_movie a movie_id with
  | inl ex => (a, Raised ex)
  | inr None => (a, Raised NotFound)
  | inr (Some movie) =>
      match showtime_entries (db (app_world a))
                             (showtimes_of (db (app_world a)) movie) with
      | inl ex => (a, Raised ex)
      | inr output =>
          (a, Response (JDict [("movie", JStr (Movie.title movie));
                               ("showtimes", JList output)]) 200)
      end
  end.

(** ** POST /register and POST /login *)

Record credentials : Type := {
  cr_username : option string;
  cr_password : option string
}.

(** [User.query.filter_by(username=name).first()] *)
Definition first_user (a : app) (name : string) : option User.t :=
  find (fun u => String.eqb (User.username u) name) (users a).

Section Accounts.

(** The library calls: [generate_password_hash(password)] with the salt
    it draws, [check_password_hash(pwhash, password)] on a password that
    may be [None], and [create_access_token(identity=...)] with the
    clock and nonce of the call. *)
Variable generate_password_hash : string -> string -> string.
Variable check_password_hash : string -> option string -> exn + bool.
Variable create_access_token : string -> string -> string.

Definition register (a : app) (data : credentials) (salt : string)
    : app * outcome :=
  match cr_username data with
  | None => (a, Raised (KeyError "username"))
  | Some name =>
      match first_user a name with
      | Some _ => (a, Response (message "Username already exists") 400)
      | None =>
          match cr_password data with
          | None => (a, Raised (KeyError "password"))
          | Some password =>
              let new_user :=
                {| User.id := next_id (map User.id (users a));
                   User.username := name;
                   User.password_hash :=
                     generate_password_hash password salt |} in
              (commit_app a (movies a) (users a ++ [new_user]),
               Response (message "User registered successfully!") 201)
          end
      end
  end.

Definition invalid_credentials : outcome :=
  Response (message "Invalid credentials") 401.

(** [data.get('username')] is [None] when the key is absent, and no
    user has a null username. *)
Definition login (a : app) (data : credentials) (nonce : string)
    : app * outcome :=
  let user :=
    match cr_username data with
    | Some name => first_user a name
    | None => None
    end in
  match user with
  | None => (a, invalid_credentials)
  | Some u =>
      match check_password_hash (User.password_hash u) (cr_password data) with
      | inl ex => (a, Raised ex)
      | inr true =>
          let access_token :=
            create_access_token (py_str (PInt (User.id u))) nonce in
          (a, Response (JDict [("access_token", JStr access_token)]) 200)
      | inr false => (a, invalid_credentials)
      end
  end.

End Accounts.

(** * Vocabulary of the properties *)

Import MockPaymentGateway.

(** ** Sample data *)

Definition sample_showtime (sid tid : Z) : Showtime.t :=
  {| Showtime.id := sid; Showtime.show_time := "2024-12-01 18:30";
     Showtime.price := 10; Showtime.movie_id := 1;
     Showtime.theater_id := tid |}.

Definition sample_seat (i : Z) (row : string) (num tid : Z) : Seat.t :=
  {| Seat.id := i; Seat.row := row; Seat.number := num;
     Seat.code := seat_code_of row num; Seat.theater_id := tid |}.

(** Theater 1 with seats A1 and A2, showtimes 1 and 2 in it, nothing
    booked. *)
Definition sample_db : database :=
  {| theaters := [{| Theater.id := 1; Theater.name := "Rex";
                     Theater.location := "Main St" |}];
     showtimes := [sample_showtime 1 1; sample_showtime 2 1];
     seats := [sample_seat 1 "A" 1 1; sample_seat 2 "A" 2 1];
     bookings := [];
     reviews := [] |}.

Definition sample_world : world := {| db := sample_db; log := [] |}.

Definition empty_world : world :=
  {| db := {| theaters := []; showtimes := []; seats := []; bookings := [];
              reviews := [] |};
     log := [] |}.

(** A draw of 0.5 (no decline) and a fixed uuid. *)
Definition calm_env : env :=
  {| rand53 := 2 ^ 52; uuid_hex := "0123456789abcdef0123456789abcdef" |}.

(** A draw of 0 (decline). *)
Definition stormy_env : env :=
  {| rand53 := 0; uuid_hex := "0123456789abcdef0123456789abcdef" |}.

Definition card (number : pyval) : card_details_value :=
  CardDict [("number", number)].

Definition good_card : card_details_value := card (PStr "4242424242424242").

Definition request (sid : Z) (c : string) (cd : option card_details_value)
    : booking_request :=
  {| showtime_id := Some sid; seat_code := Some c; card_details := cd |}.

(** The decimal digits. *)
Definition is_digit (c : ascii) : bool :=
  ((48 <=? nat_of_ascii c) && (nat_of_ascii c <=? 57))%nat.

Fixpoint all_digits (s : string) : bool :=
  match s with
  | EmptyString => true
  | String c rest => is_digit c && all_digits rest
  end.

(** "Exactly 16 digits". *)
Definition sixteen_digits (s : string) : bool :=
  (String.length s =? 16)%nat && all_digits s.

(** The seat codes registered for a theater. *)
Definition theater_seat_codes (d : database) (tid : Z) : list string :=
  map Seat.code (filter (fun s => Seat.theater_id s =? tid) (seats d)).

(** The Booking rows of a showtime and seat code. *)
Definition bookings_for (d : database) (sid : Z) (c : string)
    : list Booking.t :=
  filter (fun b => (Booking.showtime_id b =? sid)
                   && String.eqb (Booking.seat_code b) c)
         (bookings d).


(** A 201 response. *)
Definition succeeded (out : outcome) : bool :=
  match out with
  | Response _ status => status =? 201
  | Raised _ => false
  end.

Definition booking_row (i : Z) (c uid : string) (sid : Z) : Booking.t :=
  {| Booking.id := i; Booking.seat_code := c; Booking.user_id := uid;
     Booking.showtime_id := sid |}.

(** Seat A1 booked on showtime 1 only. *)
Definition one_booked_world : world :=
  {| db := set_bookings sample_db [booking_row 1 "A1" "7" 1]; log := [] |}.

(** Seat A1 booked on showtimes 1 and 2. *)
Definition both_booked_world : world :=
  {| db := set_bookings sample_db
             [booking_row 1 "A1" "7" 1; booking_row 2 "A1" "8" 2];
     log := [] |}.

(** Two requests for seat A1 of showtime 1, from users 7 and 8. *)
Definition two_arrivals : list handler :=
  [Arrived "7" (request 1 "A1" (Some good_card));
   Arrived "8" (request 1 "A1" (Some good_card))].

(** Both handlers run their checks, then both pay and commit. *)
Definition racing_schedule : list (nat * env) :=
  [(0%nat, calm_env); (1%nat, calm_env); (0%nat, calm_env); (1%nat, calm_env)].



(** Theater 1 with no seat yet. *)
Definition bare_world : world :=
  {| db := {| theaters := [{| Theater.id := 1; Theater.name := "Rex";
                              Theater.location := "Main St" |}];
              showtimes := []; seats := []; bookings := []; reviews := [] |};
     log := [] |}.

Definition seats_of (rs : list string) (n : Z) : seats_request :=
  {| rows := Some rs; seats_per_row := Some n |}.

Definition review_of (movie : Z) (text : string) (rating : Z)
    : review_request :=
  {| rq_movie_id := Some movie; rq_text := Some text;
     rq_rating := Some rating |}.

(** The codes the two loops hand out for rows [rs] and [n] seats per
    row. *)
Definition codes_of (rs : list string) (n : Z) : list string :=
  flat_map (fun row => map (seat_code_of row) (py_range 1 (n + 1))) rs.

(** The same request with other card details. *)
Definition with_card (data : booking_request)
    (cd : option card_details_value) : booking_request :=
  {| showtime_id := showtime_id data; seat_code := seat_code data;
     card_details := cd |}.

(** Python's [s.startswith(p)]. *)
Definition starts_with (p s : string) : bool := String.prefix p s.

(** Every stored review carries the score of its own text. *)
Definition scores_match (polarity_of : string -> Q) (d : database) : Prop :=
  Forall (fun r => Review.sentiment_score r = polarity_of (Review.text r))
         (reviews d).

(** The application around a world, with no movie and no user. *)
Definition app_of (w : world) : app :=
  {| app_world := w; movies := []; users := [] |}.

Definition set_world (a : app) (w : world) : app :=
  {| app_world := w; movies := movies a; users := users a |}.

Definition sample_movie : Movie.t :=
  {| Movie.id := 1; Movie.title := "Alien"; Movie.director := "Scott";
     Movie.rating := Some (17 # 2) |}.

(** The sample world with movie 1 in the catalogue. *)
Definition sample_app : app :=
  {| app_world := sample_world; movies := [sample_movie]; users := [] |}.

(** A 200 response. *)
Definition is_ok (out : outcome) : bool :=
  match out with
  | Response _ status => status =? 200
  | Raised _ => false
  end.


(** A [strptime] for the examples: it reads one text only. *)
Definition sample_strptime (text : string) : option string :=
  if String.eqb text "2025-01-05 20:00" then Some "2025-01-05 20:00" else None.

Definition showtime_of (text : string) (mid tid : Z) (p : option number)
    : showtime_request :=
  {| sq_show_time := Some text; sq_movie_id := Some mid;
     sq_theater_id := Some tid; sq_price := p |}.

(** The usernames on record. *)
Definition usernames (a : app) : list string := map User.username (users a).

Definition credentials_of (name password : string) : credentials :=
  {| cr_username := Some name; cr_password := Some password |}.

(** Library stand-ins for the examples: the "hash" is the password, a
    dollar and the salt; the check looks for the password in front. *)
Definition sample_hash (password salt : string) : string :=
  password ++ "$" ++ salt.

Definition sample_check (pwhash : string) (password : option string)
    : exn + bool :=
  match password with
  | None => inl (AttributeError "encode")
  | Some p => inr (String.prefix (p ++ "$") pwhash)
  end.

Definition sample_token (identity nonce : string) : string :=
  "jwt." ++ identity ++ "." ++ nonce.

(** An analysis for the examples: 0 for the empty text, 1/2 for any
    other. *)
Definition sample_polarity (text : string) : Q :=
  if String.eqb text "" then 0 else 1 # 2.

(** The sample world with one review on record. *)
Definition reviewed_world : world :=
  {| db := set_reviews sample_db
             [{| Review.id := 1; Review.text := "I loved this movie";
                 Review.rating := 9; Review.sentiment_score := 1 # 2;
                 Review.user_id := "7"; Review.movie_id := 1 |}];
     log := [] |}.

(** * Properties *)

Example py_str_int : py_str (PInt 4242424242424242) = "4242424242424242".
Proof. reflexivity. Qed.

Example py_str_zero_neg : py_str (PInt 0) = "0" /\ py_str (PInt (-12)) = "-12".
Proof. split; reflexivity. Qed.

Example book_sample :
  book_ticket sample_world "7" (request 1 "A1" (Some good_card)) calm_env
  = ({| db := set_bookings sample_db
                [{| Booking.id := 1; Booking.seat_code := "A1";
                    Booking.user_id := "7"; Booking.showtime_id := 1 |}];
        log := [Commit; Emit "seat_booked" (seat_booked 1 "A1")] |},
     booking_confirmed 1 (JStr "txn_0123456789")).
Proof. reflexivity. Qed.

Example book_sample_declined :
  book_ticket sample_world "7" (request 1 "A1" (Some good_card)) stormy_env
  = (sample_world, payment_failed (JStr declined_error)).
Proof. reflexivity. Qed.

(** ** The payment gateway *)

(** The gateway has three answers for a dict. *)
Lemma process_payment_cases (d : list (string * pyval)) (amount : Q) (e : env) :
  process_payment (CardDict d) amount e = inr invalid_card_response
  \/ process_payment (CardDict d) amount e = inr declined_response
  \/ process_payment (CardDict d) amount e = inr (approved_response e).
Proof.
  unfold process_payment.
  destruct (negb _); [now left|].
  destruct (random_below_tenth e); [right; now left | right; now right].
Qed.

(** C2, as stated, fails: sixteen letters are not sixteen digits, yet the
    gateway lets them through to the random draw and can approve them. *)
Lemma sixteen_letters_approved :
  sixteen_digits (py_str (PStr "ABCDEFGHIJKLMNOP")) = false
  /\ process_payment (card (PStr "ABCDEFGHIJKLMNOP")) 10 calm_env
     = inr (approved_response calm_env)
  /\ process_payment (card (PStr "ABCDEFGHIJKLMNOP")) 10 calm_env
     <> inr invalid_card_response.
Proof. repeat split. discriminate. Qed.

(** The length test of the gateway comes before the random draw. *)
Lemma length_check_first (d : list (string * pyval)) (amount : Q) (e : env) :
  String.length (py_str (Dict.get "number" (PStr "") d)) <> 16%nat ->
  process_payment (CardDict d) amount e = inr invalid_card_response.
Proof.
  intros Hlen. unfold process_payment, py_len.
  destruct (Z.eqb_spec (Z.of_nat (String.length
              (py_str (Dict.get "number" (PStr "") d)))) 16) as [Heq | Hne].
  - exfalso. apply Hlen. lia.
  - reflexivity.
Qed.

(** C2 (amended): a card number whose string form does not have exactly
    16 characters is always answered with the invalid-card failure,
    whatever the random draw and the uuid. *)
Theorem wrong_length_is_invalid_card (d : list (string * pyval)) (amount : Q)
    (e e' : env) :
  String.length (py_str (Dict.get "number" (PStr "") d)) <> 16%nat ->
  process_payment (CardDict d) amount e = inr invalid_card_response
  /\ process_payment (CardDict d) amount e'
     = process_payment (CardDict d) amount e.
Proof.
  intros Hlen. split.
  - now apply length_check_first.
  - now rewrite !length_check_first.
Qed.

Lemma wrong_length_is_invalid_card_witness :
  process_payment (card (PInt 4242)) 10 calm_env = inr invalid_card_response
  /\ process_payment (card (PInt 4242)) 10 stormy_env
     = process_payment (card (PInt 4242)) 10 calm_env.
Proof.
  apply (wrong_length_is_invalid_card [("number", PInt 4242)] 10 calm_env
           stormy_env).
  simpl. lia.
Defined.

(** ** Booking: the failure paths *)



(** What the three lookups say when they answer. *)
Lemma get_showtime_found (d : database) (sid : Z) (st : Showtime.t) :
  get_showtime d sid = inr (Some st) ->
  in_int64 sid = true /\ showtime_row d sid = Some st.
Proof.
  unfold get_showtime. destruct (in_int64 sid); [| discriminate].
  intros [= H]. now split.
Qed.

Lemma get_theater_found (d : database) (tid : Z) (t : Theater.t) :
  get_theater d tid = inr (Some t) ->
  in_int64 tid = true /\ theater_row d tid = Some t.
Proof.
  unfold get_theater. destruct (in_int64 tid); [| discriminate].
  intros [= H]. now split.
Qed.

Lemma get_theater_missing (d : database) (tid : Z) :
  get_theater d tid = inr None -> theater_row d tid = None.
Proof.
  unfold get_theater. destruct (in_int64 tid); [| discriminate].
  now intros [= H].
Qed.

Lemma showtime_row_absent (d : database) (sid : Z) :
  ~ In sid (map Showtime.id (showtimes d)) -> showtime_row d sid = None.
Proof.
  intros Hnot. unfold showtime_row.
  destruct (find _ (showtimes d)) as [st |] eqn:Hf; [| reflexivity].
  apply find_some in Hf as [Hin Heq]. apply Z.eqb_eq in Heq.
  exfalso. apply Hnot. rewrite <- Heq. now apply in_map.
Qed.

(** C4, as stated, fails: the showtime id 2^63 names no Showtime row,
    yet the answer is not the 404: binding the id for the lookup raises
    [OverflowError], which the server answers with a 500. *)
Lemma huge_showtime_id_overflows :
  ~ In (2 ^ 63) (map Showtime.id (showtimes (db sample_world)))
  /\ book_ticket sample_world "7" (request (2 ^ 63) "A1" (Some good_card))
                 calm_env
     = (sample_world, Raised OverflowError)
  /\ snd (book_ticket sample_world "7"
                      (request (2 ^ 63) "A1" (Some good_card)) calm_env)
     <> Response (message "Showtime not found") 404.
Proof.
  split; [| split].
  - simpl. intros [H | [H | []]]; discriminate.
  - reflexivity.
  - discriminate.
Qed.

(** C4 (amended): a showtime id that no Showtime row carries gives the
    404 "Showtime not found" when it lies in the signed 64-bit range,
    and the [OverflowError] of the lookup when it does not; either way
    the world is left as it was. *)
Theorem unknown_showtime_is_404 (w : world) (uid : string)
    (data : booking_request) (e : env) (sid : Z) :
  showtime_id data = Some sid ->
  ~ In sid (map Showtime.id (showtimes (db w))) ->
  book_ticket w uid data e
  = (w, if in_int64 sid
        then Response (message "Showtime not found") 404
        else Raised OverflowError).
Proof.
  intros Hsid Hnot. apply showtime_row_absent in Hnot.
  unfold book_ticket, validate, get_showtime. rewrite Hsid.
  destruct (in_int64 sid); [now rewrite Hnot | reflexivity].
Qed.

Lemma unknown_showtime_is_404_witness :
  book_ticket sample_world "7" (request 99 "A1" (Some good_card)) calm_env
  = (sample_world, Response (message "Showtime not found") 404).
Proof.
  apply (unknown_showtime_is_404 sample_world "7"
           (request 99 "A1" (Some good_card)) calm_env 99).
  - reflexivity.
  - simpl. intros [H | [H | []]]; discriminate.
Defined.

Lemma find_none_filter {A : Type} (f : A -> bool) (l : list A) :
  find f l = None <-> filter f l = [].
Proof.
  induction l as [| x l IH]; simpl.
  - tauto.
  - destruct (f x); [split; discriminate | exact IH].
Qed.

Lemma first_seat_none (d : database) (tid : Z) (c : string) :
  first_seat d tid c = None <-> ~ In c (theater_seat_codes d tid).
Proof.
  unfold first_seat, theater_seat_codes.
  induction (seats d) as [| s l IH]; simpl.
  - tauto.
  - destruct (Z.eqb_spec (Seat.theater_id s) tid) as [Ht | Ht]; simpl.
    + destruct (String.eqb_spec (Seat.code s) c) as [Hc | Hc].
      * split; [discriminate | intros H; exfalso; apply H; now left].
      * rewrite IH. tauto.
    + exact IH.
Qed.

Lemma first_booking_none (d : database) (sid : Z) (c : string) :
  first_booking d sid c = None <-> bookings_for d sid c = [].
Proof. apply find_none_filter. Qed.

(** C5: when the showtime exists and the seat code is not among the
    codes registered for its theater, the answer is the 400 naming the
    seat, and the world is left as it was (no Booking row is added). *)
Theorem unknown_seat_is_rejected (w : world) (uid : string)
    (data : booking_request) (e : env) (sid : Z) (c : string)
    (showtime : Showtime.t) :
  showtime_id data = Some sid ->
  seat_code data = Some c ->
  get_showtime (db w) sid = inr (Some showtime) ->
  ~ In c (theater_seat_codes (db w) (Showtime.theater_id showtime)) ->
  book_ticket w uid data e
  = (w, Response
          (message ("Seat " ++ c ++ " does not exist in this theater!")) 400).
Proof.
  intros Hsid Hc Hget Hseat. apply first_seat_none in Hseat.
  unfold book_ticket, validate. now rewrite Hsid, Hget, Hc, Hseat.
Qed.

Lemma unknown_seat_is_rejected_witness :
  book_ticket sample_world "7" (request 1 "Z9" (Some good_card)) calm_env
  = (sample_world,
     Response (message "Seat Z9 does not exist in this theater!") 400).
Proof.
  apply (unknown_seat_is_rejected sample_world "7"
           (request 1 "Z9" (Some good_card)) calm_env 1 "Z9"
           (sample_showtime 1 1)); try reflexivity.
  simpl. intros [H | [H | []]]; discriminate.
Defined.




(** ** Booking: the success path *)

(** What [validate] grants when it lets a request through. *)
Lemma validate_passes (d : database) (data : booking_request) (ck : checked) :
  validate d data = inr ck ->
  showtime_id data = Some (ck_showtime_id ck)
  /\ seat_code data = Some (ck_seat_code ck)
  /\ get_showtime d (ck_showtime_id ck) = inr (Some (ck_showtime ck))
  /\ first_booking d (ck_showtime_id ck) (ck_seat_code ck) = None.
Proof.
  unfold validate.
  destruct (showtime_id data) as [sid |]; [| discriminate].
  destruct (get_showtime d sid) as [ex | [st |]] eqn:Hst;
    [discriminate | | discriminate].
  destruct (seat_code data) as [c |]; [| discriminate].
  destruct (first_seat d (Showtime.theater_id st) c); [| discriminate].
  destruct (first_booking d sid c) eqn:Hb; [discriminate |].
  intros H. injection H as <-. simpl. auto.
Qed.

(** The three checks pass exactly on an existing showtime, a seat of its
    theater and a free pair. *)
Lemma validate_accepts (d : database) (data : booking_request) (sid : Z)
    (c : string) (showtime : Showtime.t) :
  showtime_id data = Some sid ->
  seat_code data = Some c ->
  get_showtime d sid = inr (Some showtime) ->
  In c (theater_seat_codes d (Showtime.theater_id showtime)) ->
  bookings_for d sid c = [] ->
  validate d data
  = inr {| ck_showtime_id := sid; ck_seat_code := c;
           ck_showtime := showtime |}.
Proof.
  intros Hsid Hc Hget Hseat Hfree.
  unfold validate. rewrite Hsid, Hget, Hc.
  destruct (first_seat d (Showtime.theater_id showtime) c) eqn:Hs.
  - apply first_booking_none in Hfree. now rewrite Hfree.
  - apply first_seat_none in Hs. contradiction.
Qed.

(** The settlement of an approved payment. *)
Lemma settle_approved (w : world) (uid : string) (data : booking_request)
    (ck : checked) (e : env) :
  process_payment (card_info data) (Showtime.price (ck_showtime ck)) e
    = inr (approved_response e) ->
  settle w uid data ck e
  = ({| db := set_bookings (db w)
                (bookings (db w)
                 ++ [booking_row (next_id (map Booking.id (bookings (db w))))
                       (ck_seat_code ck) uid (ck_showtime_id ck)]);
        log := log w
               ++ [Commit;
                   Emit "seat_booked"
                        (seat_booked (ck_showtime_id ck) (ck_seat_code ck))] |},
     booking_confirmed (next_id (map Booking.id (bookings (db w))))
                       (JStr (transaction_id e))).
Proof.
  intros Hp. unfold settle. rewrite Hp. simpl.
  unfold emit, commit, booking_row. simpl. now rewrite <- app_assoc.
Qed.

(** A payment whose answer has a true [success] is the approved one. *)
Lemma success_is_approved (cd : card_details_value) (amount : Q) (e : env)
    (payment_response : list (string * json)) :
  process_payment cd amount e = inr payment_response ->
  Dict.lookup "success" payment_response = Some (JBool true) ->
  payment_response = approved_response e.
Proof.
  destruct cd as [d |]; [| discriminate].
  destruct (process_payment_cases d amount e) as [H | [H | H]];
    rewrite H; intros Heq; injection Heq as <-; simpl;
    try discriminate; reflexivity.
Qed.

(** C6, as stated, fails: with A1 booked on showtime 1 and on showtime 2,
    an attempt for A1 on showtime 2 (the other showtime, same theater, the
    seat exists, the card is good and the draw does not decline) is
    rejected as already booked. *)
Lemma other_showtime_can_be_taken :
  bookings_for (db both_booked_world) 1 "A1" <> []
  /\ get_showtime (db both_booked_world) 1 = inr (Some (sample_showtime 1 1))
  /\ get_showtime (db both_booked_world) 2 = inr (Some (sample_showtime 2 1))
  /\ In "A1" (theater_seat_codes (db both_booked_world) 1)
  /\ process_payment good_card 10 calm_env = inr (approved_response calm_env)
  /\ book_ticket both_booked_world "9" (request 2 "A1" (Some good_card))
                 calm_env
     = (both_booked_world,
        Response (message "Sorry, that seat is already booked!") 400).
Proof. repeat split. - discriminate. - now left. Qed.

(** C6 (amended): with seat C booked on showtime S1 and not yet booked
    on another showtime S2 of the same theater, an attempt for C on S2
    whose payment succeeds is confirmed (201, a Booking row for (S2, C)
    is added), while another attempt for C on S1 is answered "already
    booked", whatever its card and draw. *)
Theorem seat_scope_is_per_showtime (w : world) (uid : string)
    (data1 data2 : booking_request) (e1 e2 : env) (s1 s2 : Z) (c : string)
    (st1 st2 : Showtime.t) (payment_response : list (string * json)) :
  showtime_id data1 = Some s1 -> seat_code data1 = Some c ->
  showtime_id data2 = Some s2 -> seat_code data2 = Some c ->
  s1 <> s2 ->
  get_showtime (db w) s1 = inr (Some st1) ->
  get_showtime (db w) s2 = inr (Some st2) ->
  Showtime.theater_id st1 = Showtime.theater_id st2 ->
  In c (theater_seat_codes (db w) (Showtime.theater_id st2)) ->
  bookings_for (db w) s1 c <> [] ->
  bookings_for (db w) s2 c = [] ->
  process_payment (card_info data2) (Showtime.price st2) e2
    = inr payment_response ->
  Dict.lookup "success" payment_response = Some (JBool true) ->
  book_ticket w uid data1 e1
  = (w, Response (message "Sorry, that seat is already booked!") 400)
  /\ book_ticket w uid data2 e2
     = ({| db := set_bookings (db w)
                   (bookings (db w)
                    ++ [booking_row (next_id (map Booking.id (bookings (db w))))
                          c uid s2]);
           log := log w ++ [Commit; Emit "seat_booked" (seat_booked s2 c)] |},
        booking_confirmed (next_id (map Booking.id (bookings (db w))))
                          (JStr (transaction_id e2))).
Proof.
  intros Hs1 Hc1 Hs2 Hc2 _ Hg1 Hg2 Hth Hseat Htaken Hfree Hp Hok.
  split.
  - unfold book_ticket, validate. rewrite Hs1, Hg1, Hc1, Hth.
    destruct (first_seat (db w) (Showtime.theater_id st2) c) eqn:Hs.
    + destruct (first_booking (db w) s1 c) eqn:Hb; [reflexivity |].
      apply first_booking_none in Hb. contradiction.
    + apply first_seat_none in Hs. contradiction.
  - unfold book_ticket.
    rewrite (validate_accepts _ _ _ _ _ Hs2 Hc2 Hg2 Hseat Hfree).
    rewrite (success_is_approved _ _ _ _ Hp Hok) in Hp.
    now rewrite (settle_approved _ _ _ _ _ Hp).
Qed.

Lemma seat_scope_is_per_showtime_witness :
  book_ticket one_booked_world "9" (request 1 "A1" (Some good_card)) calm_env
  = (one_booked_world,
     Response (message "Sorry, that seat is already booked!") 400)
  /\ book_ticket one_booked_world "9" (request 2 "A1" (Some good_card))
                 calm_env
     = ({| db := set_bookings sample_db
                   [booking_row 1 "A1" "7" 1; booking_row 2 "A1" "9" 2];
           log := [Commit; Emit "seat_booked" (seat_booked 2 "A1")] |},
        booking_confirmed 2 (JStr "txn_0123456789")).
Proof.
  apply (seat_scope_is_per_showtime one_booked_world "9"
           (request 1 "A1" (Some good_card)) (request 2 "A1" (Some good_card))
           calm_env calm_env 1 2 "A1" (sample_showtime 1 1)
           (sample_showtime 2 1) (approved_response calm_env));
    try reflexivity.
  - lia.
  - simpl. now left.
  - simpl. discriminate.
Defined.

Lemma validate_refusal_is_not_201 (d : database) (data : booking_request)
    (out : outcome) :
  validate d data = inl out -> succeeded out = false.
Proof.
  unfold validate.
  destruct (showtime_id data) as [sid |];
    [| intros H; injection H as <-; reflexivity].
  destruct (get_showtime d sid) as [ex | [st |]];
    [intros H; injection H as <-; reflexivity |
     | intros H; injection H as <-; reflexivity].
  destruct (seat_code data) as [c |];
    [| intros H; injection H as <-; reflexivity].
  destruct (first_seat d (Showtime.theater_id st) c);
    [| intros H; injection H as <-; reflexivity].
  destruct (first_booking d sid c); [| discriminate].
  intros H; injection H as <-; reflexivity.
Qed.

(** A booking either changes nothing and is not answered 201, or passed
    the checks, was approved and is settled. *)
Lemma book_ticket_cases (w : world) (uid : string) (data : booking_request)
    (e : env) :
  (fst (book_ticket w uid data e) = w
   /\ succeeded (snd (book_ticket w uid data e)) = false)
  \/ exists ck,
       validate (db w) data = inr ck
       /\ book_ticket w uid data e
          = ({| db := set_bookings (db w)
                        (bookings (db w)
                         ++ [booking_row
                               (next_id (map Booking.id (bookings (db w))))
                               (ck_seat_code ck) uid (ck_showtime_id ck)]);
                log := log w
                       ++ [Commit;
                           Emit "seat_booked"
                                (seat_booked (ck_showtime_id ck)
                                             (ck_seat_code ck))] |},
             booking_confirmed (next_id (map Booking.id (bookings (db w))))
                               (JStr (transaction_id e))).
Proof.
  unfold book_ticket.
  destruct (validate (db w) data) as [out | ck] eqn:Hv.
  - left. simpl. split; [reflexivity |].
    exact (validate_refusal_is_not_201 _ _ _ Hv).
  - destruct (card_info data) as [d |] eqn:Hcard.
    + destruct (process_payment_cases d (Showtime.price (ck_showtime ck)) e)
        as [Hp | [Hp | Hp]].
      * left. unfold settle. rewrite Hcard, Hp. now split.
      * left. unfold settle. rewrite Hcard, Hp. now split.
      * right. exists ck. split; [reflexivity |].
        rewrite <- Hcard in Hp. exact (settle_approved _ _ _ _ _ Hp).
    + left. unfold settle. rewrite Hcard. now split.
Qed.





Example seat_booked_on_sample :
  succeeded (snd (book_ticket sample_world "7"
                    (request 1 "A1" (Some good_card)) calm_env)) = true
  /\ log (fst (book_ticket sample_world "7"
                  (request 1 "A1" (Some good_card)) calm_env))
     = [Commit; Emit "seat_booked" (seat_booked 1 "A1")]
  /\ bookings (db (fst (book_ticket sample_world "7"
                           (request 1 "A1" (Some good_card)) calm_env)))
     = [booking_row 1 "A1" "7" 1].
Proof. repeat split. Qed.

(** ** The booking invariant *)

Lemma bookings_for_snoc (d : database) (b : Booking.t) (sid : Z) (c : string) :
  bookings_for (set_bookings d (bookings d ++ [b])) sid c
  = (bookings_for d sid c
     ++ (if (Booking.showtime_id b =? sid)
            && String.eqb (Booking.seat_code b) c
         then [b] else []))%list.
Proof.
  unfold bookings_for. simpl. rewrite filter_app. simpl.
  now destruct ((Booking.showtime_id b =? sid)
                && String.eqb (Booking.seat_code b) c).
Qed.

(** A booking either leaves the tables alone or appends one row for a
    pair that had none. *)
Lemma book_ticket_tables (w : world) (uid : string) (data : booking_request)
    (e : env) :
  db (fst (book_ticket w uid data e)) = db w
  \/ exists b,
       bookings_for (db w) (Booking.showtime_id b) (Booking.seat_code b) = []
       /\ db (fst (book_ticket w uid data e))
          = set_bookings (db w) (bookings (db w) ++ [b]).
Proof.
  destruct (book_ticket_cases w uid data e) as [[Hw _] | [ck [Hv Hb]]].
  - left. now rewrite Hw.
  - right. rewrite Hb. simpl.
    destruct (validate_passes _ _ _ Hv) as (_ & _ & _ & Hfree).
    apply first_booking_none in Hfree.
    eexists. split; [| reflexivity]. exact Hfree.
Qed.


(** Running one handler through its two steps with nothing in between
    is [book_ticket]. *)
Lemma serial_schedule_is_book_ticket (w : world) (uid : string)
    (data : booking_request) (e1 e2 : env) :
  run_schedule [(0%nat, e1); (0%nat, e2)] w [Arrived uid data]
  = (fst (book_ticket w uid data e2),
     [Returned (snd (book_ticket w uid data e2))]).
Proof.
  unfold book_ticket. simpl.
  destruct (validate (db w) data) as [out | ck]; simpl.
  - reflexivity.
  - now destruct (settle w uid data ck e2).
Qed.




Example serial_bookings_book_once :
  bookings_for
    (db (serve_all [("7", request 1 "A2" (Some good_card), calm_env);
                    ("8", request 1 "A2" (Some good_card), calm_env)]
                   (fst (run_schedule racing_schedule sample_world
                                      two_arrivals))))
    1 "A2"
  = [booking_row 3 "A2" "7" 1].
Proof. reflexivity. Qed.

(** ** Reviews *)

Lemma verdict_positive (p : Q) : verdict p = "Positive" <-> (0 < p)%Q.
Proof.
  unfold verdict. destruct (Qlt_le_dec 0 p) as [Hlt | Hle].
  - tauto.
  - split; [discriminate |]. intros Hlt. exfalso.
    exact (Qlt_not_le _ _ Hlt Hle).
Qed.

Lemma verdict_negative (p : Q) : verdict p = "Negative" <-> ~ (0 < p)%Q.
Proof.
  unfold verdict. destruct (Qlt_le_dec 0 p) as [Hlt | Hle].
  - split; [discriminate | tauto].
  - split; [| reflexivity]. intros _ Hlt. exact (Qlt_not_le _ _ Hlt Hle).
Qed.

(** C7: a review creation (a body with its three keys whose rating and
    movie id fit the integer columns, so that the review is stored)
    answers 201 with the score the analysis gave and a verdict that is
    "Positive" exactly when that score is above 0 and "Negative"
    otherwise; a score equal to 0 gives "Negative". *)
Theorem review_verdict_threshold (polarity_of : string -> Q) (w : world)
    (uid : string) (movie : Z) (text : string) (rating : Z) :
  in_int64 rating = true ->
  in_int64 movie = true ->
  snd (add_review polarity_of w uid (review_of movie text rating))
  = Response
      (JDict [("message", JStr "Review added!");
              ("sentiment_analysis",
               JDict [("score", JFloat (polarity_of text));
                      ("verdict", JStr (verdict (polarity_of text)))])]) 201
  /\ (verdict (polarity_of text) = "Positive" <-> (0 < polarity_of text)%Q)
  /\ (verdict (polarity_of text) = "Negative" <-> ~ (0 < polarity_of text)%Q)
  /\ ((polarity_of text == 0)%Q -> verdict (polarity_of text) = "Negative").
Proof.
  intros Hrating Hmovie.
  split; [unfold add_review; simpl; now rewrite Hrating, Hmovie |].
  split; [apply verdict_positive |].
  split; [apply verdict_negative |].
  intros Hz. apply verdict_negative. rewrite Hz. apply Qlt_irrefl.
Qed.

Lemma review_verdict_threshold_witness :
  snd (add_review (fun text => if String.eqb text "" then 0%Q else (1 # 2)%Q)
                  sample_world "7" (review_of 1 "" 5))
  = Response
      (JDict [("message", JStr "Review added!");
              ("sentiment_analysis",
               JDict [("score", JFloat 0);
                      ("verdict", JStr (verdict 0))])]) 201
  /\ (verdict 0 = "Positive" <-> (0 < 0)%Q)
  /\ (verdict 0 = "Negative" <-> ~ (0 < 0)%Q)
  /\ ((0 == 0)%Q -> verdict 0 = "Negative").
Proof.
  apply (review_verdict_threshold
           (fun text => if String.eqb text "" then 0%Q else (1 # 2)%Q)
           sample_world "7" 1 "" 5); reflexivity.
Defined.

Example review_of_empty_text :
  snd (add_review (fun text => if String.eqb text "" then 0%Q else (1 # 2)%Q)
                  empty_world "7" (review_of 1 "" 5))
  = review_added 0
  /\ verdict 0 = "Negative" /\ verdict (1 # 2) = "Positive"
  /\ verdict (- (1 # 2))%Q = "Negative".
Proof. repeat split. Qed.

(** ** Seat creation *)









(** With [seats_per_row] present the loops hand out [codes_of]. *)
Lemma seat_loop_codes (data : seats_request) (rs : list string) (n : Z) :
  seats_per_row data = Some n ->
  exists pending,
    seat_loop data rs = inr pending /\ map snd pending = codes_of rs n.
Proof.
  intros Hn. unfold codes_of.
  induction rs as [| row rest [more [Hmore Hcodes]]]; simpl.
  - now exists [].
  - rewrite Hn, Hmore. eexists. split; [reflexivity |].
    rewrite map_app, map_map. simpl. now rewrite Hcodes.
Qed.

(** Without it the loops raise at the first row and add nothing. *)
Lemma seat_loop_raises (data : seats_request) (rs : list string) :
  seats_per_row data = None ->
  rs = [] \/ seat_loop data rs = inl (KeyError "seats_per_row").
Proof.
  intros Hn. destruct rs as [| row rest]; [now left | right].
  simpl. now rewrite Hn.
Qed.

Lemma insert_seats_codes (tid tid' first_id : Z)
    (pending : list (string * Z * string)) :
  map Seat.code
      (filter (fun s => Seat.theater_id s =? tid')
              (insert_seats tid first_id pending))
  = if tid =? tid' then map snd pending else [].
Proof.
  revert first_id.
  induction pending as [| [[row num] code] rest IH]; intros first_id; simpl.
  - now destruct (tid =? tid').
  - specialize (IH (first_id + 1)).
    destruct (tid =? tid'); simpl; [f_equal |]; exact IH.
Qed.



(** Within one request too: seat 11 of row A and seat 1 of row A1 get
    the same code, which is why the labels below are digit-free. *)
Example overlapping_rows_share_a_code :
  seat_code_of "A" 11 = seat_code_of "A1" 1
  /\ In (seat_code_of "A" 11) (codes_of ["A"] 11)
  /\ In (seat_code_of "A1" 1) (codes_of ["A1"] 11).
Proof. split; [reflexivity | split; simpl; tauto]. Qed.



Example seats_for_bare_theater :
  add_seats_to_theater bare_world 1 (seats_of ["A"; "B"] 2)
  = ({| db := set_seats (db bare_world)
                [sample_seat 1 "A" 1 1; sample_seat 2 "A" 2 1;
                 sample_seat 3 "B" 1 1; sample_seat 4 "B" 2 1];
        log := [Commit] |},
     Response
       (JDict [("message", JStr "Created 4 seats for Rex");
               ("seats", JList [JStr "A1"; JStr "A2"; JStr "B1"; JStr "B2"])])
       201).
Proof. reflexivity. Qed.

(** * Further properties of the handlers *)

(** ** Booking *)

(** X1: every way [book_ticket] can end.  The answer is the 201
    receipt, the 404, one of the three 400s (unknown seat, taken seat,
    payment failed with one of the gateway's two errors), a [KeyError]
    for [showtime_id] or [seat_code], the [OverflowError] of a
    showtime id outside the 64-bit range, or the [AttributeError] of a
    card_details that is not an object; and only the 201 changes the
    world. *)
Theorem book_ticket_outcomes (w : world) (uid : string)
    (data : booking_request) (e : env) :
  (exists i, snd (book_ticket w uid data e)
             = booking_confirmed i (JStr (transaction_id e)))
  \/ (fst (book_ticket w uid data e) = w
      /\ (snd (book_ticket w uid data e) = showtime_not_found
          \/ (exists c, snd (book_ticket w uid data e) = seat_does_not_exist c)
          \/ snd (book_ticket w uid data e) = seat_already_booked
          \/ snd (book_ticket w uid data e)
             = payment_failed (JStr invalid_card_error)
          \/ snd (book_ticket w uid data e)
             = payment_failed (JStr declined_error)
          \/ snd (book_ticket w uid data e) = Raised (KeyError "showtime_id")
          \/ snd (book_ticket w uid data e) = Raised (KeyError "seat_code")
          \/ snd (book_ticket w uid data e) = Raised OverflowError
          \/ snd (book_ticket w uid data e) = Raised (AttributeError "get"))).
Proof.
  unfold book_ticket.
  destruct (validate (db w) data) as [out | ck] eqn:Hv.
  - right. split; [reflexivity |]. simpl. revert Hv.
    unfold validate, get_showtime.
    destruct (showtime_id data) as [sid |];
      [| intros [= <-]; tauto].
    destruct (in_int64 sid); [| intros [= <-]; tauto].
    destruct (showtime_row (db w) sid) as [st |];
      [| intros [= <-]; tauto].
    destruct (seat_code data) as [c |];
      [| intros [= <-]; tauto].
    destruct (first_seat (db w) (Showtime.theater_id st) c);
      [| intros [= <-]; right; left; now exists c].
    destruct (first_booking (db w) sid c); [| discriminate].
    intros [= <-]; tauto.
  - destruct (card_info data) as [d |] eqn:Hcard.
    + destruct (process_payment_cases d (Showtime.price (ck_showtime ck)) e)
        as [Hp | [Hp | Hp]].
      * right. unfold settle. rewrite Hcard, Hp. simpl. tauto.
      * right. unfold settle. rewrite Hcard, Hp. simpl. tauto.
      * left. rewrite <- Hcard in Hp. rewrite (settle_approved _ _ _ _ _ Hp).
        simpl. eexists. reflexivity.
    + right. unfold settle. rewrite Hcard. simpl. tauto.
Qed.

(** X2: a booking never touches the theaters, showtimes, seats or
    reviews, and never removes or alters a Booking row: the rows that
    were there are still there, in order, followed by at most one new
    row. *)
Theorem book_ticket_only_appends (w : world) (uid : string)
    (data : booking_request) (e : env) :
  theaters (db (fst (book_ticket w uid data e))) = theaters (db w)
  /\ showtimes (db (fst (book_ticket w uid data e))) = showtimes (db w)
  /\ seats (db (fst (book_ticket w uid data e))) = seats (db w)
  /\ reviews (db (fst (book_ticket w uid data e))) = reviews (db w)
  /\ exists added,
       bookings (db (fst (book_ticket w uid data e)))
       = (bookings (db w) ++ added)%list
       /\ (List.length added <= 1)%nat.
Proof.
  destruct (book_ticket_tables w uid data e) as [-> | [b [_ ->]]].
  - do 4 (split; [reflexivity |]). exists [].
    split; [now rewrite app_nil_r | simpl; lia].
  - do 4 (split; [reflexivity |]). exists [b].
    split; [reflexivity | simpl; lia].
Qed.

Lemma serve_all_appends (reqs : list (string * booking_request * env))
    (w : world) :
  theaters (db (serve_all reqs w)) = theaters (db w)
  /\ showtimes (db (serve_all reqs w)) = showtimes (db w)
  /\ seats (db (serve_all reqs w)) = seats (db w)
  /\ exists added,
       bookings (db (serve_all reqs w)) = (bookings (db w) ++ added)%list.
Proof.
  revert w. induction reqs as [| [[uid data] e] rest IH]; intros w; simpl.
  - do 3 (split; [reflexivity |]). exists []. now rewrite app_nil_r.
  - destruct (IH (fst (book_ticket w uid data e)))
      as (Ht & Hs & Hse & added & Hb).
    destruct (book_ticket_tables w uid data e) as [Heq | [b [_ Heq]]];
      rewrite Heq in *.
    + do 3 (split; [assumption |]). now exists added.
    + do 3 (split; [assumption |]). exists (b :: added).
      rewrite Hb. simpl. now rewrite <- app_assoc.
Qed.

(** X3: a booked seat stays booked.  Once a Booking row exists for a
    seat of a showtime, then after any number of further bookings served
    in turn every attempt for that showtime and seat is answered
    "already booked", whatever card it brings. *)
Theorem booked_seat_stays_booked
    (reqs : list (string * booking_request * env)) (w : world)
    (uid : string) (data : booking_request) (e : env) (sid : Z) (c : string)
    (showtime : Showtime.t) :
  showtime_id data = Some sid ->
  seat_code data = Some c ->
  get_showtime (db w) sid = inr (Some showtime) ->
  In c (theater_seat_codes (db w) (Showtime.theater_id showtime)) ->
  bookings_for (db w) sid c <> [] ->
  book_ticket (serve_all reqs w) uid data e
  = (serve_all reqs w, seat_already_booked).
Proof.
  intros Hsid Hc Hget Hseat Htaken.
  destruct (serve_all_appends reqs w) as (_ & Hs & Hse & added & Hb).
  unfold book_ticket, validate. rewrite Hsid, Hc.
  unfold get_showtime, showtime_row in *. rewrite Hs, Hget.
  destruct (first_seat (serve_all reqs w).(db)
                       (Showtime.theater_id showtime) c) eqn:Hfs.
  - destruct (first_booking (serve_all reqs w).(db) sid c) eqn:Hfb;
      [reflexivity |].
    apply first_booking_none in Hfb. exfalso. apply Htaken.
    unfold bookings_for in *. rewrite Hb, filter_app in Hfb.
    now apply app_eq_nil in Hfb as [Hfb _].
  - apply first_seat_none in Hfs. exfalso. apply Hfs.
    unfold theater_seat_codes in *. now rewrite Hse.
Qed.

Lemma booked_seat_stays_booked_witness :
  book_ticket
    (serve_all [("8", request 2 "A1" (Some good_card), calm_env);
                ("9", request 1 "A2" (Some good_card), calm_env)]
               one_booked_world)
    "9" (request 1 "A1" (Some good_card)) calm_env
  = (serve_all [("8", request 2 "A1" (Some good_card), calm_env);
                ("9", request 1 "A2" (Some good_card), calm_env)]
               one_booked_world,
     seat_already_booked).
Proof.
  apply (booked_seat_stays_booked
           [("8", request 2 "A1" (Some good_card), calm_env);
            ("9", request 1 "A2" (Some good_card), calm_env)]
           one_booked_world "9" (request 1 "A1" (Some good_card)) calm_env
           1 "A1" (sample_showtime 1 1)); try reflexivity.
  - simpl. now left.
  - simpl. discriminate.
Defined.

(** X4: the keys are read where the handler needs them.  A body
    without [showtime_id] raises [KeyError] at once; a body without
    [seat_code] raises it only after its showtime was found: for a
    showtime that exists the missing [seat_code] is the [KeyError], for
    one that does not the answer is the 404 and [seat_code] is never
    read.  None of the three writes anything. *)
Theorem missing_booking_keys_raise (w : world) (uid : string) (e : env)
    (sid sid' : Z) (showtime : Showtime.t) (sc : option string)
    (cd : option card_details_value) :
  get_showtime (db w) sid = inr (Some showtime) ->
  get_showtime (db w) sid' = inr None ->
  book_ticket w uid
    {| showtime_id := None; seat_code := sc; card_details := cd |} e
  = (w, Raised (KeyError "showtime_id"))
  /\ book_ticket w uid
       {| showtime_id := Some sid; seat_code := None; card_details := cd |} e
     = (w, Raised (KeyError "seat_code"))
  /\ book_ticket w uid
       {| showtime_id := Some sid'; seat_code := None; card_details := cd |} e
     = (w, Response (message "Showtime not found") 404).
Proof.
  intros Hget Hnone. split; [reflexivity |].
  unfold book_ticket, validate. simpl. now rewrite Hget, Hnone.
Qed.

Lemma missing_booking_keys_raise_witness :
  book_ticket sample_world "7"
    {| showtime_id := None; seat_code := Some "A1";
       card_details := Some good_card |} calm_env
  = (sample_world, Raised (KeyError "showtime_id"))
  /\ book_ticket sample_world "7"
       {| showtime_id := Some 1; seat_code := None;
          card_details := Some good_card |} calm_env
     = (sample_world, Raised (KeyError "seat_code"))
  /\ book_ticket sample_world "7"
       {| showtime_id := Some 99; seat_code := None;
          card_details := Some good_card |} calm_env
     = (sample_world, Response (message "Showtime not found") 404).
Proof.
  apply (missing_booking_keys_raise sample_world "7" calm_env 1 99
           (sample_showtime 1 1) (Some "A1") (Some good_card));
    reflexivity.
Defined.

(** X5: a card_details that is present but is not an object (null, a
    string, a number, a list) makes the gateway's [.get] raise
    [AttributeError] once the three checks have passed; no Booking is
    written. *)
Theorem non_object_card_raises (w : world) (uid : string)
    (data : booking_request) (e : env) (ck : checked) :
  validate (db w) data = inr ck ->
  card_details data = Some CardNotDict ->
  book_ticket w uid data e = (w, Raised (AttributeError "get")).
Proof.
  intros Hv Hcd. unfold book_ticket. rewrite Hv.
  unfold settle, card_info. now rewrite Hcd.
Qed.

Lemma non_object_card_raises_witness :
  book_ticket sample_world "7" (request 1 "A1" (Some CardNotDict)) calm_env
  = (sample_world, Raised (AttributeError "get")).
Proof.
  apply (non_object_card_raises sample_world "7"
           (request 1 "A1" (Some CardNotDict)) calm_env
           {| ck_showtime_id := 1; ck_seat_code := "A1";
              ck_showtime := sample_showtime 1 1 |}); reflexivity.
Defined.

(** X6: the checks come before the payment.  A request that one of the
    three checks refuses gets that same answer whatever card details it
    carries and whatever the gateway would have drawn: the gateway has
    no say in it. *)
Theorem refused_before_payment (w : world) (uid : string)
    (data : booking_request) (out : outcome)
    (cd : option card_details_value) (e : env) :
  validate (db w) data = inl out ->
  book_ticket w uid (with_card data cd) e = (w, out).
Proof.
  intros Hv. unfold book_ticket.
  replace (validate (db w) (with_card data cd)) with (validate (db w) data)
    by reflexivity.
  now rewrite Hv.
Qed.

Lemma refused_before_payment_witness :
  book_ticket one_booked_world "9"
    (with_card (request 1 "A1" None) (Some good_card)) calm_env
  = (one_booked_world, seat_already_booked).
Proof.
  apply (refused_before_payment one_booked_world "9" (request 1 "A1" None)
           seat_already_booked (Some good_card) calm_env).
  reflexivity.
Defined.

(** ** The gateway *)

(** X7: the gateway approves exactly the card numbers whose string form
    has 16 characters on a draw that is not below 0.1 (in 53-bit units:
    [4 * rand53] at least [3602879701896397]); the amount plays no
    part. *)
Theorem payment_approved_iff (d : list (string * pyval)) (amount : Q)
    (e : env) :
  process_payment (CardDict d) amount e = inr (approved_response e)
  <-> String.length (py_str (Dict.get "number" (PStr "") d)) = 16%nat
      /\ 3602879701896397 <= 4 * rand53 e.
Proof.
  unfold process_payment, py_len, random_below_tenth.
  unfold invalid_card_response, declined_response, approved_response.
  destruct (Z.eqb_spec (Z.of_nat (String.length
              (py_str (Dict.get "number" (PStr "") d)))) 16) as [Hlen | Hlen];
    cbn [negb].
  - destruct (Z.ltb_spec (4 * rand53 e) 3602879701896397) as [Hlt | Hge].
    + split; [intros H; discriminate H | lia].
    + split; [intros _; split; lia | reflexivity].
  - split; [intros H; discriminate H | intros [H _]; lia].
Qed.

Lemma substring_length (n : nat) (s : string) :
  (n <= String.length s)%nat -> String.length (String.substring 0 n s) = n.
Proof.
  revert s. induction n as [| n IH]; intros s Hn.
  - now destruct s.
  - destruct s as [| c s]; simpl in *; [lia |].
    rewrite IH; [reflexivity | lia].
Qed.

Lemma substring_whole (n : nat) (s : string) :
  String.length s = n -> String.substring 0 n s = s.
Proof.
  revert s. induction n as [| n IH]; intros [| c s] Hn; simpl in *;
    try discriminate; try reflexivity.
  f_equal. apply IH. now injection Hn.
Qed.

(** X8: the receipt.  With a uuid of at least ten characters (a
    [uuid4().hex] has 32) the transaction id is [txn_] followed by the
    first ten of them, 14 characters in all. *)
Theorem transaction_id_format (e : env) :
  (10 <= String.length (uuid_hex e))%nat ->
  String.length (transaction_id e) = 14%nat
  /\ starts_with "txn_" (transaction_id e) = true
  /\ String.substring 4 10 (transaction_id e)
     = String.substring 0 10 (uuid_hex e).
Proof.
  intros Hlen. unfold transaction_id.
  pose proof (substring_length 10 (uuid_hex e) Hlen) as Hsub.
  split; [simpl; now rewrite Hsub |].
  split; [unfold starts_with; simpl;
          now destruct (String.substring 0 10 (uuid_hex e)) |].
  simpl. now apply substring_whole.
Qed.

Lemma transaction_id_format_witness :
  String.length (transaction_id calm_env) = 14%nat
  /\ starts_with "txn_" (transaction_id calm_env) = true
  /\ String.substring 4 10 (transaction_id calm_env)
     = String.substring 0 10 (uuid_hex calm_env).
Proof.
  apply (transaction_id_format calm_env). simpl. lia.
Defined.

(** A taken seat of an existing showtime is refused. *)
Lemma taken_seat_refused (w : world) (uid : string) (data : booking_request)
    (e : env) (sid : Z) (c : string) (showtime : Showtime.t) :
  showtime_id data = Some sid ->
  seat_code data = Some c ->
  get_showtime (db w) sid = inr (Some showtime) ->
  In c (theater_seat_codes (db w) (Showtime.theater_id showtime)) ->
  bookings_for (db w) sid c <> [] ->
  book_ticket w uid data e = (w, seat_already_booked).
Proof.
  intros Hsid Hc Hget Hseat Htaken.
  unfold book_ticket, validate. rewrite Hsid, Hget, Hc.
  destruct (first_seat (db w) (Showtime.theater_id showtime) c) eqn:Hs.
  - destruct (first_booking (db w) sid c) eqn:Hb; [reflexivity |].
    apply first_booking_none in Hb. contradiction.
  - apply first_seat_none in Hs. contradiction.
Qed.

(** X9: book once, then twice.  For an existing showtime, a seat of its
    theater that is free, a card number of 16 characters and a draw that
    does not decline, the booking is confirmed with the next booking id
    and the gateway's transaction id; the same seat asked again right
    after, by anyone with any card, is answered "already booked". *)
Theorem book_once_then_refused (w : world) (uid uid' : string)
    (data : booking_request) (e e' : env) (sid : Z) (c : string)
    (showtime : Showtime.t) (d : list (string * pyval))
    (cd' : option card_details_value) :
  showtime_id data = Some sid ->
  seat_code data = Some c ->
  get_showtime (db w) sid = inr (Some showtime) ->
  In c (theater_seat_codes (db w) (Showtime.theater_id showtime)) ->
  bookings_for (db w) sid c = [] ->
  card_details data = Some (CardDict d) ->
  String.length (py_str (Dict.get "number" (PStr "") d)) = 16%nat ->
  random_below_tenth e = false ->
  snd (book_ticket w uid data e)
  = booking_confirmed (next_id (map Booking.id (bookings (db w))))
                      (JStr (transaction_id e))
  /\ book_ticket (fst (book_ticket w uid data e)) uid' (with_card data cd') e'
     = (fst (book_ticket w uid data e), seat_already_booked).
Proof.
  intros Hsid Hc Hget Hseat Hfree Hcd Hlen Hdraw.
  assert (Hp : process_payment (card_info data) (Showtime.price showtime) e
               = inr (approved_response e)).
  { unfold card_info. rewrite Hcd. unfold process_payment, py_len.
    rewrite Hlen, Hdraw. reflexivity. }
  assert (Hb : book_ticket w uid data e
               = ({| db := set_bookings (db w)
                             (bookings (db w)
                              ++ [booking_row
                                    (next_id (map Booking.id (bookings (db w))))
                                    c uid sid]);
                     log := log w
                            ++ [Commit;
                                Emit "seat_booked" (seat_booked sid c)] |},
                  booking_confirmed
                    (next_id (map Booking.id (bookings (db w))))
                    (JStr (transaction_id e)))).
  { unfold book_ticket.
    rewrite (validate_accepts _ _ _ _ _ Hsid Hc Hget Hseat Hfree).
    now rewrite (settle_approved _ _ _ _ _ Hp). }
  rewrite Hb. split; [reflexivity |]. simpl.
  apply (taken_seat_refused _ uid' (with_card data cd') e' sid c showtime);
    auto.
  simpl. rewrite bookings_for_snoc. simpl.
  rewrite Z.eqb_refl, String.eqb_refl. simpl.
  intros H. apply app_eq_nil in H as [_ H]. discriminate.
Qed.

Lemma book_once_then_refused_witness :
  snd (book_ticket sample_world "7" (request 1 "A1" (Some good_card)) calm_env)
  = booking_confirmed
      (next_id (map Booking.id (bookings (db sample_world))))
      (JStr (transaction_id calm_env))
  /\ book_ticket
       (fst (book_ticket sample_world "7" (request 1 "A1" (Some good_card))
                         calm_env))
       "8" (with_card (request 1 "A1" (Some good_card)) None) stormy_env
     = (fst (book_ticket sample_world "7" (request 1 "A1" (Some good_card))
                         calm_env),
        seat_already_booked).
Proof.
  apply (book_once_then_refused sample_world "7" "8"
           (request 1 "A1" (Some good_card)) calm_env stormy_env 1 "A1"
           (sample_showtime 1 1) [("number", PStr "4242424242424242")] None);
    try reflexivity.
  simpl. now left.
Defined.

(** ** Seat creation, continued *)

(** How [add_seats_to_theater] can end. *)
Lemma add_seats_cases (w : world) (tid : Z) (data : seats_request) :
  (add_seats_to_theater w tid data = (w, Raised OverflowError)
   \/ add_seats_to_theater w tid data = (w, Raised NotFound)
   \/ add_seats_to_theater w tid data = (w, Raised (KeyError "rows"))
   \/ add_seats_to_theater w tid data = (w, Raised (KeyError "seats_per_row")))
  \/ exists theater rs pending,
       get_theater (db w) tid = inr (Some theater)
       /\ Theater.id theater = tid
       /\ rows data = Some rs
       /\ seat_loop data rs = inr pending
       /\ add_seats_to_theater w tid data
          = (commit w (set_seats (db w)
                         (seats (db w)
                          ++ insert_seats tid
                               (next_id (map Seat.id (seats (db w)))) pending)),
             seats_created (List.length (map snd pending))
                           (Theater.name theater) (map snd pending)).
Proof.
  unfold add_seats_to_theater.
  destruct (get_theater (db w) tid) as [ex | [theater |]] eqn:Hth.
  { left. left. revert Hth. unfold get_theater.
    destruct (in_int64 tid); [discriminate | now intros [= <-]]. }
  2: tauto.
  pose proof Hth as Hid. apply get_theater_found in Hid as [_ Hid].
  apply find_some in Hid as [_ Hid]. apply Z.eqb_eq in Hid.
  destruct (rows data) as [rs |] eqn:Hrows; [| tauto].
  destruct (seat_loop data rs) as [ex | pending] eqn:Hloop.
  - left. right. right. right.
    destruct (seats_per_row data) as [n |] eqn:Hn.
    + destruct (seat_loop_codes data rs n Hn) as [p [Hp _]]. congruence.
    + destruct (seat_loop_raises data rs Hn) as [-> | Hr].
      * discriminate.
      * congruence.
  - right. exists theater, rs, pending. rewrite Hid. auto.
Qed.

Lemma py_range_length (a b : Z) :
  List.length (py_range a b) = Z.to_nat (b - a).
Proof. unfold py_range. now rewrite length_map, length_seq. Qed.

Lemma codes_of_length (rs : list string) (n : Z) :
  List.length (codes_of rs n) = (List.length rs * Z.to_nat n)%nat.
Proof.
  unfold codes_of. induction rs as [| row rest IH]; simpl.
  - reflexivity.
  - rewrite length_app, length_map, py_range_length, IH.
    replace (n + 1 - 1) with n by lia. reflexivity.
Qed.

Lemma insert_seats_theater (tid first_id : Z)
    (pending : list (string * Z * string)) :
  Forall (fun s => Seat.theater_id s = tid)
         (insert_seats tid first_id pending).
Proof.
  revert first_id.
  induction pending as [| [[row num] code] rest IH]; intros i; simpl;
    constructor; [reflexivity | apply IH].
Qed.

(** X10: seats are created all at once or not at all.  The request ends
    in the [OverflowError] of a theater id outside the 64-bit range, in
    the 404 of an unknown theater, in a [KeyError] for [rows] or
    [seats_per_row], all four with the world untouched, or in the 201
    after a single commit that left theaters, showtimes, bookings and
    reviews alone and kept every seat that was there, adding seats of
    the named theater only. *)
Theorem add_seats_all_or_nothing (w : world) (tid : Z) (data : seats_request) :
  (fst (add_seats_to_theater w tid data) = w
   /\ (snd (add_seats_to_theater w tid data) = Raised OverflowError
       \/ snd (add_seats_to_theater w tid data) = Raised NotFound
       \/ snd (add_seats_to_theater w tid data) = Raised (KeyError "rows")
       \/ snd (add_seats_to_theater w tid data)
          = Raised (KeyError "seats_per_row")))
  \/ (succeeded (snd (add_seats_to_theater w tid data)) = true
      /\ log (fst (add_seats_to_theater w tid data)) = (log w ++ [Commit])%list
      /\ theaters (db (fst (add_seats_to_theater w tid data)))
         = theaters (db w)
      /\ showtimes (db (fst (add_seats_to_theater w tid data)))
         = showtimes (db w)
      /\ bookings (db (fst (add_seats_to_theater w tid data)))
         = bookings (db w)
      /\ reviews (db (fst (add_seats_to_theater w tid data)))
         = reviews (db w)
      /\ exists added,
           seats (db (fst (add_seats_to_theater w tid data)))
           = (seats (db w) ++ added)%list
           /\ Forall (fun s => Seat.theater_id s = tid) added).
Proof.
  destruct (add_seats_cases w tid data)
    as [[H | [H | [H | H]]] | (t & rs & pending & _ & _ & _ & _ & H)];
    rewrite H; simpl.
  - left. tauto.
  - left. tauto.
  - left. tauto.
  - left. tauto.
  - right. do 6 (split; [reflexivity |]).
    exists (insert_seats tid (next_id (map Seat.id (seats (db w)))) pending).
    split; [reflexivity | apply insert_seats_theater].
Qed.

(** X11: what a successful seat creation answers.  For an existing
    theater, rows [rs] and [n] seats per row, the 201 lists the codes
    row by row, numbers 1 to [n] within each row, and counts
    [len(rs) * max(n, 0)] of them; the theater's seat codes are the
    ones it had followed by these. *)
Theorem add_seats_answer (w : world) (tid : Z) (data : seats_request)
    (theater : Theater.t) (rs : list string) (n : Z) :
  get_theater (db w) tid = inr (Some theater) ->
  rows data = Some rs ->
  seats_per_row data = Some n ->
  snd (add_seats_to_theater w tid data)
  = seats_created (List.length rs * Z.to_nat n) (Theater.name theater)
                  (codes_of rs n)
  /\ theater_seat_codes (db (fst (add_seats_to_theater w tid data))) tid
     = (theater_seat_codes (db w) tid ++ codes_of rs n)%list.
Proof.
  intros Hth Hrows Hn.
  destruct (seat_loop_codes data rs n Hn) as [pending [Hloop Hcodes]].
  split.
  - unfold add_seats_to_theater. rewrite Hth, Hrows, Hloop. simpl.
    now rewrite Hcodes, codes_of_length.
  - unfold add_seats_to_theater. rewrite Hth, Hrows, Hloop.
    apply get_theater_found in Hth as [_ Hth].
    apply find_some in Hth as [_ Hid]. apply Z.eqb_eq in Hid.
    unfold theater_seat_codes. simpl.
    now rewrite filter_app, map_app, insert_seats_codes, Hid, Z.eqb_refl,
      Hcodes.
Qed.

Lemma add_seats_answer_witness :
  snd (add_seats_to_theater bare_world 1 (seats_of ["A"; "B"] 2))
  = seats_created (2 * Z.to_nat 2) "Rex" (codes_of ["A"; "B"] 2)
  /\ theater_seat_codes
       (db (fst (add_seats_to_theater bare_world 1 (seats_of ["A"; "B"] 2)))) 1
     = (theater_seat_codes (db bare_world) 1 ++ codes_of ["A"; "B"] 2)%list.
Proof.
  apply (add_seats_answer bare_world 1 (seats_of ["A"; "B"] 2)
           {| Theater.id := 1; Theater.name := "Rex";
              Theater.location := "Main St" |} ["A"; "B"] 2); reflexivity.
Defined.

Lemma codes_of_nonpositive (rs : list string) (n : Z) :
  n <= 0 -> codes_of rs n = [].
Proof.
  intros Hn. apply length_zero_iff_nil. rewrite codes_of_length.
  replace (Z.to_nat n) with 0%nat by lia. lia.
Qed.

(** X12: requests that create nothing.  For an existing theater, an
    empty list of rows is answered 201 with no seat even when
    [seats_per_row] is missing (it is read inside the loop), and so is a
    [seats_per_row] of zero or less; rows without a [seats_per_row]
    raise [KeyError] and leave the world as it was. *)
Theorem seat_requests_that_create_nothing (w : world) (tid : Z)
    (theater : Theater.t) (r : string) (rs : list string) (n : Z) :
  get_theater (db w) tid = inr (Some theater) ->
  n <= 0 ->
  snd (add_seats_to_theater w tid {| rows := Some []; seats_per_row := None |})
  = seats_created 0 (Theater.name theater) []
  /\ snd (add_seats_to_theater w tid
            {| rows := Some rs; seats_per_row := Some n |})
     = seats_created 0 (Theater.name theater) []
  /\ add_seats_to_theater w tid
       {| rows := Some (r :: rs); seats_per_row := None |}
     = (w, Raised (KeyError "seats_per_row")).
Proof.
  intros Hth Hn. split; [| split].
  - unfold add_seats_to_theater. now rewrite Hth.
  - unfold add_seats_to_theater. rewrite Hth. simpl.
    destruct (seat_loop_codes {| rows := Some rs; seats_per_row := Some n |}
                rs n eq_refl) as [pending [-> Hcodes]].
    simpl. now rewrite Hcodes, codes_of_nonpositive.
  - unfold add_seats_to_theater. now rewrite Hth.
Qed.

Lemma seat_requests_that_create_nothing_witness :
  snd (add_seats_to_theater bare_world 1
         {| rows := Some []; seats_per_row := None |})
  = seats_created 0 "Rex" []
  /\ snd (add_seats_to_theater bare_world 1
            {| rows := Some ["A"; "B"]; seats_per_row := Some (-3) |})
     = seats_created 0 "Rex" []
  /\ add_seats_to_theater bare_world 1
       {| rows := Some ["A"; "B"]; seats_per_row := None |}
     = (bare_world, Raised (KeyError "seats_per_row")).
Proof.
  apply (seat_requests_that_create_nothing bare_world 1
           {| Theater.id := 1; Theater.name := "Rex";
              Theater.location := "Main St" |} "A" ["B"] (-3)).
  - reflexivity.
  - lia.
Defined.

Lemma in_codes_of (rs : list string) (n : Z) (r : string) (k : Z) :
  In r rs -> 1 <= k <= n -> In (seat_code_of r k) (codes_of rs n).
Proof.
  intros Hr Hk. unfold codes_of. apply in_flat_map. exists r.
  split; [exact Hr |]. apply in_map. unfold py_range.
  apply in_map_iff. exists (Z.to_nat (k - 1)). split; [lia |].
  apply in_seq. lia.
Qed.

(** X13: seats that were created can be booked.  After a seat creation
    for an existing theater with rows [rs] and [n] seats per row, the
    seat [r ++ str(k)] of any row [r] of [rs] and any [k] from 1 to [n]
    is accepted for every showtime of that theater: with the pair not
    yet booked, a card number of 16 characters and a draw that does not
    decline, the booking is confirmed. *)
Theorem created_seats_are_bookable (w : world) (tid : Z)
    (seats_data : seats_request) (theater : Theater.t) (rs : list string)
    (n : Z) (r : string) (k : Z) (uid : string) (sid : Z)
    (showtime : Showtime.t) (d : list (string * pyval)) (e : env) :
  get_theater (db w) tid = inr (Some theater) ->
  rows seats_data = Some rs ->
  seats_per_row seats_data = Some n ->
  In r rs ->
  1 <= k <= n ->
  get_showtime (db w) sid = inr (Some showtime) ->
  Showtime.theater_id showtime = tid ->
  bookings_for (db w) sid (seat_code_of r k) = [] ->
  String.length (py_str (Dict.get "number" (PStr "") d)) = 16%nat ->
  random_below_tenth e = false ->
  snd (book_ticket (fst (add_seats_to_theater w tid seats_data)) uid
         (request sid (seat_code_of r k) (Some (CardDict d))) e)
  = booking_confirmed (next_id (map Booking.id (bookings (db w))))
                      (JStr (transaction_id e)).
Proof.
  intros Hth Hrows Hn Hr Hk Hget Htid Hfree Hlen Hdraw.
  destruct (seat_loop_codes seats_data rs n Hn) as [pending [Hloop Hcodes]].
  pose proof Hth as Hid. apply get_theater_found in Hid as [_ Hid].
  apply find_some in Hid as [_ Hid].
  apply Z.eqb_eq in Hid.
  unfold add_seats_to_theater. rewrite Hth, Hrows, Hloop. simpl.
  unfold book_ticket.
  rewrite (validate_accepts _ (request sid (seat_code_of r k)
                                 (Some (CardDict d)))
             sid (seat_code_of r k) showtime); try reflexivity; try assumption.
  - rewrite settle_approved; [reflexivity |].
    simpl. unfold process_payment, py_len. now rewrite Hlen, Hdraw.
  - rewrite Htid. unfold theater_seat_codes. simpl.
    rewrite filter_app, map_app, insert_seats_codes, Hid, Z.eqb_refl, Hcodes.
    apply in_or_app. right. now apply in_codes_of.
Qed.

Lemma created_seats_are_bookable_witness :
  snd (book_ticket
         (fst (add_seats_to_theater sample_world 1 (seats_of ["B"] 3))) "7"
         (request 2 (seat_code_of "B" 3)
                  (Some (CardDict [("number", PInt 4242424242424242)])))
         calm_env)
  = booking_confirmed (next_id (map Booking.id (bookings (db sample_world))))
                      (JStr (transaction_id calm_env)).
Proof.
  apply (created_seats_are_bookable sample_world 1 (seats_of ["B"] 3)
           {| Theater.id := 1; Theater.name := "Rex";
              Theater.location := "Main St" |} ["B"] 3 "B" 3 "7" 2
           (sample_showtime 2 1) [("number", PInt 4242424242424242)]
           calm_env); try reflexivity.
  - now left.
  - lia.
Defined.

(** ** Reviews, continued *)

(** X14: the score is computed once and kept.  A review creation with
    its three keys, whose rating and movie id fit the integer columns,
    stores one new row after the earlier reviews, which are left as
    they were: the row carries the text, the rating, the user, the
    movie and the score of the text.  When every stored review carried
    the score of its own text, all of them do afterwards.  Bookings,
    seats and showtimes are not touched. *)
Theorem review_scores_are_kept (polarity_of : string -> Q) (w : world)
    (uid : string) (movie : Z) (text : string) (rating : Z) :
  scores_match polarity_of (db w) ->
  in_int64 rating = true ->
  in_int64 movie = true ->
  reviews (db (fst (add_review polarity_of w uid
                               (review_of movie text rating))))
  = (reviews (db w)
     ++ [{| Review.id := next_id (map Review.id (reviews (db w)));
            Review.text := text;
            Review.rating := rating;
            Review.sentiment_score := polarity_of text;
            Review.user_id := uid;
            Review.movie_id := movie |}])%list
  /\ scores_match polarity_of
       (db (fst (add_review polarity_of w uid (review_of movie text rating))))
  /\ bookings (db (fst (add_review polarity_of w uid
                                   (review_of movie text rating))))
     = bookings (db w)
  /\ seats (db (fst (add_review polarity_of w uid
                                (review_of movie text rating))))
     = seats (db w)
  /\ showtimes (db (fst (add_review polarity_of w uid
                                    (review_of movie text rating))))
     = showtimes (db w).
Proof.
  intros Hinv Hrating Hmovie. unfold add_review. simpl.
  rewrite Hrating, Hmovie. simpl.
  split; [reflexivity |]. split; [| auto].
  unfold scores_match. simpl. apply Forall_app. split; [exact Hinv |].
  constructor; [reflexivity | constructor].
Qed.

Lemma review_scores_are_kept_witness :
  reviews (db (fst (add_review sample_polarity reviewed_world "8"
                               (review_of 1 "" 11))))
  = (reviews (db reviewed_world)
     ++ [{| Review.id := next_id (map Review.id (reviews (db reviewed_world)));
            Review.text := "";
            Review.rating := 11;
            Review.sentiment_score := sample_polarity "";
            Review.user_id := "8";
            Review.movie_id := 1 |}])%list
  /\ scores_match sample_polarity
       (db (fst (add_review sample_polarity reviewed_world "8"
                            (review_of 1 "" 11))))
  /\ bookings (db (fst (add_review sample_polarity reviewed_world "8"
                                   (review_of 1 "" 11))))
     = bookings (db reviewed_world)
  /\ seats (db (fst (add_review sample_polarity reviewed_world "8"
                                (review_of 1 "" 11))))
     = seats (db reviewed_world)
  /\ showtimes (db (fst (add_review sample_polarity reviewed_world "8"
                                    (review_of 1 "" 11))))
     = showtimes (db reviewed_world).
Proof.
  apply (review_scores_are_kept sample_polarity reviewed_world "8" 1 "" 11);
    try reflexivity.
  repeat constructor.
Defined.

(** ** Movies *)



(** X16: a movie body with a key missing adds nothing.  The keys are
    read in the order title, director, rating and the first one missing
    is the [KeyError]; the application is left as it was. *)
Theorem add_movie_missing_key (a : app) (data : movie_request) :
  mq_title data = None \/ mq_director data = None \/ mq_rating data = None ->
  fst (add_movie a data) = a
  /\ snd (add_movie a data)
     = Raised (KeyError (match mq_title data, mq_director data with
                         | None, _ => "title"
                         | Some _, None => "director"
                         | Some _, Some _ => "rating"
                         end)).
Proof.
  intros H. unfold add_movie.
  destruct (mq_title data); [| now split].
  destruct (mq_director data); [| now split].
  destruct (mq_rating data); [| now split].
  destruct H as [H | [H | H]]; discriminate.
Qed.

Lemma add_movie_missing_key_witness :
  fst (add_movie sample_app {| mq_title := Some "Heat"; mq_director := None;
                               mq_rating := None |}) = sample_app
  /\ snd (add_movie sample_app {| mq_title := Some "Heat";
                                  mq_director := None; mq_rating := None |})
     = Raised (KeyError "director").
Proof.
  apply (add_movie_missing_key sample_app
           {| mq_title := Some "Heat"; mq_director := None;
              mq_rating := None |}).
  right. left. reflexivity.
Defined.

(** ** Showtimes *)






Lemma showtime_entries_orphan (d : database) (shows : list Showtime.t)
    (show : Showtime.t) :
  In show shows ->
  get_theater d (Showtime.theater_id show) = inr None ->
  showtime_entries d shows = inl (AttributeError "name").
Proof.
  intros Hin Hnone. apply get_theater_missing in Hnone.
  induction shows as [| s rest IH]; [contradiction |].
  simpl. destruct Hin as [-> | Hin].
  - unfold showtime_entry. now rewrite Hnone.
  - unfold showtime_entry at 1.
    destruct (theater_row d (Showtime.theater_id s)); [| reflexivity].
    now rewrite (IH Hin).
Qed.

(** X18: one showtime without a theater breaks the whole listing.  When
    some showtime of the movie names a theater id that no Theater row
    has, [get_movie_showtimes] raises [AttributeError] (the [.name] of
    [None]) instead of answering, whatever the other showtimes are. *)
Theorem orphan_showtime_breaks_listing (a : app) (mid : Z) (movie : Movie.t)
    (show : Showtime.t) :
  get_movie a mid = inr (Some movie) ->
  In show (showtimes_of (db (app_world a)) movie) ->
  get_theater (db (app_world a)) (Showtime.theater_id show) = inr None ->
  get_movie_showtimes a mid = (a, Raised (AttributeError "name")).
Proof.
  intros Hmovie Hin Hnone. unfold get_movie_showtimes. rewrite Hmovie.
  now rewrite (showtime_entries_orphan _ _ _ Hin Hnone).
Qed.

Lemma orphan_showtime_breaks_listing_witness :
  get_movie_showtimes
    (set_world sample_app
       (fst (create_showtime sample_strptime (app_world sample_app)
               (showtime_of "2025-01-05 20:00" 1 42 None))))
    1
  = (set_world sample_app
       (fst (create_showtime sample_strptime (app_world sample_app)
               (showtime_of "2025-01-05 20:00" 1 42 None))),
     Raised (AttributeError "name")).
Proof.
  apply (orphan_showtime_breaks_listing
           (set_world sample_app
              (fst (create_showtime sample_strptime (app_world sample_app)
                      (showtime_of "2025-01-05 20:00" 1 42 None))))
           1 sample_movie
           {| Showtime.id := 3; Showtime.show_time := "2025-01-05 20:00";
              Showtime.price := 10; Showtime.movie_id := 1;
              Showtime.theater_id := 42 |}).
  - reflexivity.
  - simpl. right. right. left. reflexivity.
  - reflexivity.
Defined.


(** ** Accounts *)

Lemma first_user_none (a : app) (name : string) :
  first_user a name = None <-> ~ In name (usernames a).
Proof.
  unfold first_user, usernames.
  induction (users a) as [| u l IH]; simpl.
  - tauto.
  - destruct (String.eqb_spec (User.username u) name) as [Hn | Hn].
    + split; [discriminate | intros H; exfalso; apply H; now left].
    + rewrite IH. tauto.
Qed.

Lemma find_snoc_fresh {A : Type} (f : A -> bool) (l : list A) (x : A) :
  find f l = None -> f x = true -> find f (l ++ [x]) = Some x.
Proof.
  intros Hl Hx. induction l as [| y l IH]; simpl in *.
  - now rewrite Hx.
  - destruct (f y); [discriminate | now apply IH].
Qed.

(** How [register] can end. *)
Lemma register_cases (generate_password_hash : string -> string -> string)
    (a : app) (data : credentials) (salt : string) :
  fst (register generate_password_hash a data salt) = a
  \/ exists name password,
       cr_username data = Some name /\ cr_password data = Some password
       /\ first_user a name = None
       /\ register generate_password_hash a data salt
          = (commit_app a (movies a)
               (users a
                ++ [{| User.id := next_id (map User.id (users a));
                       User.username := name;
                       User.password_hash :=
                         generate_password_hash password salt |}]),
             Response (message "User registered successfully!") 201).
Proof.
  unfold register.
  destruct (cr_username data) as [name |]; [| now left].
  destruct (first_user a name) eqn:Hfirst; [now left |].
  destruct (cr_password data) as [password |]; [| now left].
  right. now exists name, password.
Qed.

(** X20: register, then log in.  Provided the library's check accepts
    the hash the library made for the same password, registering a
    username that is not on record and then logging in with the same
    username and password answers 200 with the token minted for the new
    user's id; the login changes nothing. *)
Theorem register_then_login
    (generate_password_hash : string -> string -> string)
    (check_password_hash : string -> option string -> exn + bool)
    (create_access_token : string -> string -> string)
    (a : app) (name password salt nonce : string) :
  (forall p s, check_password_hash (generate_password_hash p s) (Some p)
               = inr true) ->
  ~ In name (usernames a) ->
  snd (register generate_password_hash a (credentials_of name password) salt)
  = Response (message "User registered successfully!") 201
  /\ login check_password_hash create_access_token
       (fst (register generate_password_hash a (credentials_of name password)
                      salt))
       (credentials_of name password) nonce
     = (fst (register generate_password_hash a (credentials_of name password)
                      salt),
        Response
          (JDict [("access_token",
                   JStr (create_access_token
                           (py_str (PInt (next_id (map User.id (users a)))))
                           nonce))]) 200).
Proof.
  intros Hlib Hfresh. apply first_user_none in Hfresh.
  unfold register. simpl. rewrite Hfresh. simpl. split; [reflexivity |].
  unfold login, first_user. simpl.
  rewrite (find_snoc_fresh _ _ _ Hfresh) by (simpl; apply String.eqb_refl).
  simpl. now rewrite Hlib.
Qed.

Lemma sample_check_accepts (p s : string) :
  sample_check (sample_hash p s) (Some p) = inr true.
Proof.
  unfold sample_check, sample_hash. f_equal.
  induction p as [| c p IH]; simpl.
  - now destruct s.
  - destruct (ascii_dec c c) as [_ | Hne]; [exact IH | contradiction].
Qed.

Lemma register_then_login_witness :
  snd (register sample_hash sample_app (credentials_of "ann" "s3cret") "NaCl")
  = Response (message "User registered successfully!") 201
  /\ login sample_check sample_token
       (fst (register sample_hash sample_app (credentials_of "ann" "s3cret")
                      "NaCl"))
       (credentials_of "ann" "s3cret") "n1"
     = (fst (register sample_hash sample_app (credentials_of "ann" "s3cret")
                      "NaCl"),
        Response
          (JDict [("access_token",
                   JStr (sample_token
                           (py_str (PInt (next_id (map User.id
                                                       (users sample_app)))))
                           "n1"))]) 200).
Proof.
  apply (register_then_login sample_hash sample_check sample_token sample_app
           "ann" "s3cret" "NaCl" "n1").
  - exact sample_check_accepts.
  - simpl. tauto.
Defined.

(** X21: usernames stay unique.  When no two users on record share a
    username, none do after a registration, whatever its body. *)
Theorem register_keeps_usernames_unique
    (generate_password_hash : string -> string -> string)
    (a : app) (data : credentials) (salt : string) :
  NoDup (usernames a) ->
  NoDup (usernames (fst (register generate_password_hash a data salt))).
Proof.
  intros Hnd.
  destruct (register_cases generate_password_hash a data salt)
    as [-> | (name & password & _ & _ & Hfresh & ->)]; [exact Hnd |].
  apply first_user_none in Hfresh.
  unfold usernames in *. simpl. rewrite map_app. simpl.
  apply NoDup_app; [exact Hnd | repeat constructor; simpl; tauto |].
  intros x Hx [<- | []]. contradiction.
Qed.

Lemma register_keeps_usernames_unique_witness :
  NoDup (usernames
           (fst (register sample_hash
                   (fst (register sample_hash sample_app
                           (credentials_of "ann" "s3cret") "NaCl"))
                   (credentials_of "ann" "other") "KCl"))).
Proof.
  apply (register_keeps_usernames_unique sample_hash
           (fst (register sample_hash sample_app
                   (credentials_of "ann" "s3cret") "NaCl"))
           (credentials_of "ann" "other") "KCl").
  simpl. repeat constructor. simpl. tauto.
Defined.

(** X22: a username can be registered once.  After a successful
    registration, registering the same username again, with any
    password or none, is answered 400 "Username already exists" and
    leaves the application, and so the first password hash, as it was. *)
Theorem username_registers_once
    (generate_password_hash : string -> string -> string)
    (a : app) (name password salt salt' : string)
    (password' : option string) :
  ~ In name (usernames a) ->
  register generate_password_hash
    (fst (register generate_password_hash a (credentials_of name password)
                   salt))
    {| cr_username := Some name; cr_password := password' |} salt'
  = (fst (register generate_password_hash a (credentials_of name password)
                   salt),
     Response (message "Username already exists") 400).
Proof.
  intros Hfresh. apply first_user_none in Hfresh.
  unfold register at 2 3. simpl. rewrite Hfresh. simpl.
  unfold register, first_user. simpl.
  now rewrite (find_snoc_fresh _ _ _ Hfresh) by (simpl; apply String.eqb_refl).
Qed.

Lemma username_registers_once_witness :
  register sample_hash
    (fst (register sample_hash sample_app (credentials_of "ann" "s3cret")
                   "NaCl"))
    {| cr_username := Some "ann"; cr_password := None |} "KCl"
  = (fst (register sample_hash sample_app (credentials_of "ann" "s3cret")
                   "NaCl"),
     Response (message "Username already exists") 400).
Proof.
  apply (username_registers_once sample_hash sample_app "ann" "s3cret" "NaCl"
           "KCl" None).
  simpl. tauto.
Defined.

(** X23: what a login can do.  It never changes the application; it
    answers 200 only for the username of a user on record whose stored
    hash the library's check accepts for the given password; and a body
    without [username] is answered 401 like an unknown user, not with a
    [KeyError]. *)
Theorem login_outcomes
    (check_password_hash : string -> option string -> exn + bool)
    (create_access_token : string -> string -> string)
    (a : app) (data : credentials) (nonce : string) :
  fst (login check_password_hash create_access_token a data nonce) = a
  /\ (is_ok (snd (login check_password_hash create_access_token a data nonce))
      = true ->
      exists name u,
        cr_username data = Some name /\ first_user a name = Some u
        /\ check_password_hash (User.password_hash u) (cr_password data)
           = inr true)
  /\ (cr_username data = None
      \/ (exists name, cr_username data = Some name
                       /\ ~ In name (usernames a)) ->
      snd (login check_password_hash create_access_token a data nonce)
      = Response (message "Invalid credentials") 401).
Proof.
  unfold login. split; [| split].
  - destruct (cr_username data) as [name |]; [| reflexivity].
    destruct (first_user a name) as [u |]; [| reflexivity].
    now destruct (check_password_hash _ _) as [ex | [|]].
  - destruct (cr_username data) as [name |]; [| discriminate].
    destruct (first_user a name) as [u |] eqn:Hu; [| discriminate].
    destruct (check_password_hash _ _) as [ex | [|]] eqn:Hc;
      try discriminate.
    intros _. now exists name, u.
  - intros [-> | [name [-> Hfresh]]]; [reflexivity |].
    apply first_user_none in Hfresh. now rewrite Hfresh.
Qed.

(** ** Reset *)

(** X24: the reset forgets everything.  After [setup_database], whatever
    was stored, every booking attempt with a showtime id is answered
    404, the movie list is empty, every login is answered 401, every
    showtime listing and every seat creation is a 404, and a username
    that was taken can be registered again.  (An id outside the 64-bit
    range still raises [OverflowError] instead of the 404.) *)
Theorem reset_forgets_everything (a : app) :
  (forall uid sid sc cd e,
     book_ticket (app_world (fst (setup_database a))) uid
       {| showtime_id := Some sid; seat_code := sc; card_details := cd |} e
     = (app_world (fst (setup_database a)),
        if in_int64 sid then Response (message "Showtime not found") 404
        else Raised OverflowError))
  /\ snd (get_movies (fst (setup_database a)))
     = Response (JDict [("movies", JList [])]) 200
  /\ (forall check_password_hash create_access_token data nonce,
        snd (login check_password_hash create_access_token
                   (fst (setup_database a)) data nonce)
        = Response (message "Invalid credentials") 401)
  /\ (forall mid,
        snd (get_movie_showtimes (fst (setup_database a)) mid)
        = Raised (if in_int64 mid then NotFound else OverflowError))
  /\ (forall tid data,
        snd (add_seats_to_theater (app_world (fst (setup_database a))) tid
                                  data)
        = Raised (if in_int64 tid then NotFound else OverflowError))
  /\ (forall generate_password_hash name password salt,
        snd (register generate_password_hash (fst (setup_database a))
                      (credentials_of name password) salt)
        = Response (message "User registered successfully!") 201).
Proof.
  split; [| split; [| split; [| split; [| split]]]].
  - intros uid sid sc cd e. unfold book_ticket, validate, get_showtime. simpl.
    now destruct (in_int64 sid).
  - reflexivity.
  - intros check_password_hash create_access_token data nonce.
    unfold login. simpl. now destruct (cr_username data).
  - intros mid. unfold get_movie_showtimes, get_movie. simpl.
    now destruct (in_int64 mid).
  - intros tid data. unfold add_seats_to_theater, get_theater. simpl.
    now destruct (in_int64 tid).
  - reflexivity.
Qed.

(** ** Theaters *)

Lemma next_id_above (ids : list Z) (i : Z) : In i ids -> i < next_id ids.
Proof.
  intros Hin. unfold next_id.
  assert (H : i <= fold_right Z.max 0 ids).
  { induction ids as [| j ids IH]; [contradiction |].
    cbn [fold_right]. destruct Hin as [-> | Hin]; [lia |].
    specialize (IH Hin). lia. }
  lia.
Qed.

Lemma get_theater_new (d : database) (theater : Theater.t) :
  Theater.id theater = next_id (map Theater.id (theaters d)) ->
  in_int64 (Theater.id theater) = true ->
  get_theater (set_theaters d (theaters d ++ [theater])) (Theater.id theater)
  = inr (Some theater).
Proof.
  intros Hid Hfit. unfold get_theater, theater_row. rewrite Hfit. f_equal.
  simpl. apply find_snoc_fresh.
  - destruct (find _ (theaters d)) as [t |] eqn:Hf; [| reflexivity].
    apply find_some in Hf as [Hin Heq]. apply Z.eqb_eq in Heq.
    apply (in_map Theater.id) in Hin. apply next_id_above in Hin. lia.
  - apply Z.eqb_refl.
Qed.

(** X25: a theater that was created takes seats.  After [create_theater]
    with a name and a location, a seat creation addressed to the id the
    new row got (one more than the largest theater id, which fits the
    64-bit key) finds the theater: it answers 201, names it in the
    message and lists [len(rows) * max(seats_per_row, 0)] codes. *)
Theorem new_theater_takes_seats (w : world) (name location : string)
    (data : seats_request) (rs : list string) (n : Z) :
  in_int64 (next_id (map Theater.id (theaters (db w)))) = true ->
  rows data = Some rs ->
  seats_per_row data = Some n ->
  snd (create_theater w {| tq_name := Some name;
                           tq_location := Some location |})
  = Response (message "Theater created!") 201
  /\ snd (add_seats_to_theater
            (fst (create_theater w {| tq_name := Some name;
                                      tq_location := Some location |}))
            (next_id (map Theater.id (theaters (db w)))) data)
     = seats_created (List.length rs * Z.to_nat n) name (codes_of rs n).
Proof.
  intros Hfit Hrows Hn. split; [reflexivity |].
  unfold create_theater. simpl.
  destruct (seat_loop_codes data rs n Hn) as [pending [Hloop Hcodes]].
  pose proof (get_theater_new (db w)
                {| Theater.id := next_id (map Theater.id (theaters (db w)));
                   Theater.name := name; Theater.location := location |}
                eq_refl Hfit) as Hnew.
  cbn [Theater.id] in Hnew.
  unfold add_seats_to_theater. cbn [db commit fst].
  rewrite Hnew, Hrows, Hloop. simpl. now rewrite Hcodes, codes_of_length.
Qed.

Lemma new_theater_takes_seats_witness :
  snd (create_theater sample_world {| tq_name := Some "Lux";
                                      tq_location := Some "Dock Rd" |})
  = Response (message "Theater created!") 201
  /\ snd (add_seats_to_theater
            (fst (create_theater sample_world
                    {| tq_name := Some "Lux";
                       tq_location := Some "Dock Rd" |}))
            (next_id (map Theater.id (theaters (db sample_world))))
            (seats_of ["A"] 3))
     = seats_created (1 * Z.to_nat 3) "Lux" (codes_of ["A"] 3).
Proof.
  apply (new_theater_takes_seats sample_world "Lux" "Dock Rd"
           (seats_of ["A"] 3) ["A"] 3); reflexivity.
Defined.

(** ** Integers and floats at the database *)

Example double_of_int_rounds :
  double_of_int (2 ^ 53) = 2 ^ 53
  /\ double_of_int (2 ^ 53 + 1) = 2 ^ 53
  /\ double_of_int (2 ^ 53 + 3) = 2 ^ 53 + 4
  /\ double_of_int (2 ^ 63 - 1) = 2 ^ 63
  /\ double_of_int (- (2 ^ 53 + 1)) = - 2 ^ 53
  /\ double_of_int 10 = 10.
Proof. repeat split. Qed.

Example integers_that_do_not_fit :
  add_review sample_polarity sample_world "7" (review_of 1 "fine" (2 ^ 63))
  = (sample_world, Raised OverflowError)
  /\ add_review sample_polarity sample_world "7"
       (review_of (- 2 ^ 63 - 1) "fine" 7)
     = (sample_world, Raised OverflowError)
  /\ add_seats_to_theater sample_world (2 ^ 63) (seats_of ["A"] 1)
     = (sample_world, Raised OverflowError)
  /\ get_movie_showtimes sample_app (2 ^ 63)
     = (sample_app, Raised OverflowError)
  /\ add_movie sample_app
       {| mq_title := Some "Heat"; mq_director := Some "Mann";
          mq_rating := Some (Some (NInt (2 ^ 63))) |}
     = (sample_app, Raised OverflowError)
  /\ create_showtime sample_strptime sample_world
       (showtime_of "2025-01-05 20:00" 1 (2 ^ 63) None)
     = (sample_world, Handled (Raised OverflowError)).
Proof. repeat split. Qed.
